(** * Connection lifecycle controller of moonlight-common-c (src/Connection.c)

    A shallow embedding of [Connection.c]: the staged connection state
    machine ([LiStartConnection], [LiStopConnection],
    [LiInterruptConnection]), the stage name table ([LiGetStageName]) and
    the termination callback shim ([ClInternalConnectionTerminated]).

    The file-scope and global variables of [Connection.c] are the fields of
    the record [globals].  Every function is a computation in the monad [M]:
    it takes the globals, and either returns a value with the new globals,
    stops at a failed [LC_ASSERT], or performs an out-of-bounds array read.
    Each computation also produces the log of what it did, in program
    order: the stores to the globals, the calls into the other modules of
    the library, and the callbacks it invoked.  [Limelog] calls only write
    text to the log callback and are left out. *)

From Stdlib Require Import ZArith List String Bool Lia.
Import ListNotations.
Local Open Scope Z_scope.

(** ** Constants of Limelight.h *)

(** Modelled from the spec: the stage ordinals of Limelight.h (not under
    src/), in the order of the spec's stage enumeration.  The order is the
    one [stageNames] lists the labels in, and the one the assertions after
    each [stage++] in [LiStartConnection] check. *)
Definition STAGE_NONE : Z := 0.
Definition STAGE_PLATFORM_INIT : Z := 1.
Definition STAGE_NAME_RESOLUTION : Z := 2.
Definition STAGE_RTSP_HANDSHAKE : Z := 3.
Definition STAGE_CONTROL_STREAM_INIT : Z := 4.
Definition STAGE_VIDEO_STREAM_INIT : Z := 5.
Definition STAGE_AUDIO_STREAM_INIT : Z := 6.
Definition STAGE_INPUT_STREAM_INIT : Z := 7.
Definition STAGE_CONTROL_STREAM_START : Z := 8.
Definition STAGE_VIDEO_STREAM_START : Z := 9.
Definition STAGE_AUDIO_STREAM_START : Z := 10.
Definition STAGE_INPUT_STREAM_START : Z := 11.
Definition STAGE_MAX : Z := 12.

(** Modelled from the spec: the three streaming-mode hints ("local",
    "remote", "auto") of Limelight.h (not under src/).  Only the fact that
    they are three different integers is used. *)
Definition STREAM_CFG_LOCAL : Z := 0.
Definition STREAM_CFG_REMOTE : Z := 1.
Definition STREAM_CFG_AUTO : Z := 2.

(** Modelled from the spec: "an unspecified address family", the constant
    [AF_UNSPEC] of the socket headers. *)
Definition AF_UNSPEC : Z := 0.

(** ** Data *)

(** The fields of [STREAM_CONFIGURATION] that [Connection.c] reads or
    writes; all three are C [int]s. *)
Record STREAM_CONFIGURATION := mkStreamConfig {
  packetSize : Z;
  streamingRemotely : Z;
  bitrate : Z
}.

Record SERVER_INFORMATION := mkServerInfo {
  address : string;
  serverInfoAppVersion : string
}.

(** A function pointer held in a callback slot. *)
Inductive fnptr :=
| NullFn
| UserFn (id : nat)
| PlaceholderFn
| ShimFn.   (* ClInternalConnectionTerminated *)

(** The [connectionTerminated] slot of the listener bundle.  The other
    slots ([stageStarting], [stageComplete], [stageFailed],
    [connectionStarted]) are only ever called, never replaced; a call
    through one of them is an event of the log. *)
Record CONNECTION_LISTENER_CALLBACKS := mkListener {
  connectionTerminated : fnptr
}.

(** [struct sockaddr_storage], as raw bytes. *)
Definition sockaddr_storage := list Z.

(** The four components of the application version. *)
Abbreviation quad := (Z * Z * Z * Z)%type (only parsing).

(** The variables of [Connection.c]. *)
Record globals := mkGlobals {
  stage : Z;
  originalTerminationCallback : fnptr;
  alreadyTerminated : Z;
  terminationCallbackErrorCode : Z;
  RemoteAddrString : option string;      (* None is NULL *)
  RemoteAddr : sockaddr_storage;
  RemoteAddrLen : Z;
  AppVersionQuad : quad;
  StreamConfig : STREAM_CONFIGURATION;
  ListenerCallbacks : CONNECTION_LISTENER_CALLBACKS;
  NegotiatedVideoFormat : Z;
  ConnectionInterrupted : Z;
  OriginalVideoBitrate : Z
}.

Definition set_stage (v : Z) (g : globals) : globals :=
  mkGlobals v (originalTerminationCallback g) (alreadyTerminated g)
    (terminationCallbackErrorCode g) (RemoteAddrString g) (RemoteAddr g)
    (RemoteAddrLen g) (AppVersionQuad g) (StreamConfig g)
    (ListenerCallbacks g) (NegotiatedVideoFormat g)
    (ConnectionInterrupted g) (OriginalVideoBitrate g).

Definition set_originalTerminationCallback (v : fnptr) (g : globals) : globals :=
  mkGlobals (stage g) v (alreadyTerminated g)
    (terminationCallbackErrorCode g) (RemoteAddrString g) (RemoteAddr g)
    (RemoteAddrLen g) (AppVersionQuad g) (StreamConfig g)
    (ListenerCallbacks g) (NegotiatedVideoFormat g)
    (ConnectionInterrupted g) (OriginalVideoBitrate g).

Definition set_alreadyTerminated (v : Z) (g : globals) : globals :=
  mkGlobals (stage g) (originalTerminationCallback g) v
    (terminationCallbackErrorCode g) (RemoteAddrString g) (RemoteAddr g)
    (RemoteAddrLen g) (AppVersionQuad g) (StreamConfig g)
    (ListenerCallbacks g) (NegotiatedVideoFormat g)
    (ConnectionInterrupted g) (OriginalVideoBitrate g).

Definition set_terminationCallbackErrorCode (v : Z) (g : globals) : globals :=
  mkGlobals (stage g) (originalTerminationCallback g) (alreadyTerminated g)
    v (RemoteAddrString g) (RemoteAddr g)
    (RemoteAddrLen g) (AppVersionQuad g) (StreamConfig g)
    (ListenerCallbacks g) (NegotiatedVideoFormat g)
    (ConnectionInterrupted g) (OriginalVideoBitrate g).

Definition set_RemoteAddrString (v : option string) (g : globals) : globals :=
  mkGlobals (stage g) (originalTerminationCallback g) (alreadyTerminated g)
    (terminationCallbackErrorCode g) v (RemoteAddr g)
    (RemoteAddrLen g) (AppVersionQuad g) (StreamConfig g)
    (ListenerCallbacks g) (NegotiatedVideoFormat g)
    (ConnectionInterrupted g) (OriginalVideoBitrate g).

Definition set_RemoteAddr (v : sockaddr_storage) (len : Z) (g : globals) : globals :=
  mkGlobals (stage g) (originalTerminationCallback g) (alreadyTerminated g)
    (terminationCallbackErrorCode g) (RemoteAddrString g) v
    len (AppVersionQuad g) (StreamConfig g)
    (ListenerCallbacks g) (NegotiatedVideoFormat g)
    (ConnectionInterrupted g) (OriginalVideoBitrate g).

Definition set_AppVersionQuad (v : quad) (g : globals) : globals :=
  mkGlobals (stage g) (originalTerminationCallback g) (alreadyTerminated g)
    (terminationCallbackErrorCode g) (RemoteAddrString g) (RemoteAddr g)
    (RemoteAddrLen g) v (StreamConfig g)
    (ListenerCallbacks g) (NegotiatedVideoFormat g)
    (ConnectionInterrupted g) (OriginalVideoBitrate g).

Definition set_StreamConfig (v : STREAM_CONFIGURATION) (g : globals) : globals :=
  mkGlobals (stage g) (originalTerminationCallback g) (alreadyTerminated g)
    (terminationCallbackErrorCode g) (RemoteAddrString g) (RemoteAddr g)
    (RemoteAddrLen g) (AppVersionQuad g) v
    (ListenerCallbacks g) (NegotiatedVideoFormat g)
    (ConnectionInterrupted g) (OriginalVideoBitrate g).

Definition set_ListenerCallbacks (v : CONNECTION_LISTENER_CALLBACKS) (g : globals) : globals :=
  mkGlobals (stage g) (originalTerminationCallback g) (alreadyTerminated g)
    (terminationCallbackErrorCode g) (RemoteAddrString g) (RemoteAddr g)
    (RemoteAddrLen g) (AppVersionQuad g) (StreamConfig g)
    v (NegotiatedVideoFormat g)
    (ConnectionInterrupted g) (OriginalVideoBitrate g).

Definition set_NegotiatedVideoFormat (v : Z) (g : globals) : globals :=
  mkGlobals (stage g) (originalTerminationCallback g) (alreadyTerminated g)
    (terminationCallbackErrorCode g) (RemoteAddrString g) (RemoteAddr g)
    (RemoteAddrLen g) (AppVersionQuad g) (StreamConfig g)
    (ListenerCallbacks g) v
    (ConnectionInterrupted g) (OriginalVideoBitrate g).

Definition set_ConnectionInterrupted (v : Z) (g : globals) : globals :=
  mkGlobals (stage g) (originalTerminationCallback g) (alreadyTerminated g)
    (terminationCallbackErrorCode g) (RemoteAddrString g) (RemoteAddr g)
    (RemoteAddrLen g) (AppVersionQuad g) (StreamConfig g)
    (ListenerCallbacks g) (NegotiatedVideoFormat g)
    v (OriginalVideoBitrate g).

Definition set_OriginalVideoBitrate (v : Z) (g : globals) : globals :=
  mkGlobals (stage g) (originalTerminationCallback g) (alreadyTerminated g)
    (terminationCallbackErrorCode g) (RemoteAddrString g) (RemoteAddr g)
    (RemoteAddrLen g) (AppVersionQuad g) (StreamConfig g)
    (ListenerCallbacks g) (NegotiatedVideoFormat g)
    (ConnectionInterrupted g) v.

Definition set_packetSize (v : Z) (c : STREAM_CONFIGURATION) : STREAM_CONFIGURATION :=
  mkStreamConfig v (streamingRemotely c) (bitrate c).

Definition set_streamingRemotely (v : Z) (c : STREAM_CONFIGURATION) : STREAM_CONFIGURATION :=
  mkStreamConfig (packetSize c) v (bitrate c).

(** ** The log *)

(** The functions of the other modules that [Connection.c] calls. *)
Inductive callee :=
| c_extractVersionQuadFromString | c_fixupMissingCallbacks
| c_initializePlatform | c_resolveHostName | c_isPrivateNetworkAddress
| c_performRtspHandshake
| c_initializeControlStream | c_initializeVideoStream
| c_initializeAudioStream | c_initializeInputStream
| c_startControlStream | c_startVideoStream
| c_startAudioStream | c_startInputStream
| c_stopInputStream | c_stopAudioStream
| c_stopVideoStream | c_stopControlStream
| c_destroyInputStream | c_destroyAudioStream
| c_destroyVideoStream | c_destroyControlStream
| c_cleanupPlatform
| c_PltCloseThread.

(** The integer variables whose stores are logged. *)
Inductive ivar :=
| v_stage | v_alreadyTerminated | v_terminationCallbackErrorCode
| v_NegotiatedVideoFormat | v_ConnectionInterrupted
| v_OriginalVideoBitrate | v_packetSize | v_streamingRemotely.

(** The objects whose assignment as a whole is logged. *)
Inductive object :=
| o_StreamConfig | o_VideoCallbacks | o_AudioCallbacks
| o_ListenerCallbacks | o_originalTerminationCallback
| o_connectionTerminated.

Inductive event :=
| EvStore (x : ivar) (v : Z)                    (* x = v *)
| EvCopy (o : object)                           (* memcpy or pointer store *)
| EvStrdup (s : string)                         (* RemoteAddrString = strdup(s) *)
| EvFree (s : string)                           (* free(RemoteAddrString) *)
| EvCall (c : callee)
| EvStageStarting (s : Z)                       (* ListenerCallbacks.stageStarting(s) *)
| EvStageComplete (s : Z)
| EvStageFailed (s : Z) (err : Z)
| EvConnectionStarted
| EvMouseMove (dx dy : Z)                       (* LiSendMouseMoveEvent *)
| EvSleepMs (ms : Z)                            (* PltSleepMs *)
| EvCreateThread (name : string) (err : Z).     (* PltCreateThread and its result *)

(** ** The monad *)

Inductive outcome (A : Type) :=
| Returned (a : A) (g : globals) (log : list event)
| AssertFailed (g : globals) (log : list event)      (* a failed LC_ASSERT *)
| OutOfBounds (g : globals) (log : list event).      (* array read outside the array *)
Arguments Returned {A} a g log.
Arguments AssertFailed {A} g log.
Arguments OutOfBounds {A} g log.

Definition M (A : Type) : Type := globals -> outcome A.

Definition ret {A} (a : A) : M A := fun g => Returned a g [].

(** The same outcome, after the events [l]. *)
Definition prepend {A} (l : list event) (o : outcome A) : outcome A :=
  match o with
  | Returned a g l' => Returned a g (l ++ l')
  | AssertFailed g l' => AssertFailed g (l ++ l')
  | OutOfBounds g l' => OutOfBounds g (l ++ l')
  end.

Definition bind {A B} (m : M A) (k : A -> M B) : M B :=
  fun g =>
    match m g with
    | Returned a g1 l1 => prepend l1 (k a g1)
    | AssertFailed g1 l1 => AssertFailed g1 l1
    | OutOfBounds g1 l1 => OutOfBounds g1 l1
    end.

Declare Scope conn_scope.
Delimit Scope conn_scope with conn.
Notation "x <- m ;; k" := (bind m (fun x => k))
  (at level 61, m at next level, right associativity) : conn_scope.
Notation "m ;; k" := (bind m (fun _ => k))
  (at level 61, right associativity) : conn_scope.
Local Open Scope conn_scope.

Definition get : M globals := fun g => Returned g g [].
Definition modify (f : globals -> globals) : M unit := fun g => Returned tt (f g) [].
Definition emit (e : event) : M unit := fun g => Returned tt g [e].

(** What a computation leaves behind, whichever way it ended. *)
Definition final_globals {A} (o : outcome A) : globals :=
  match o with
  | Returned _ g _ | AssertFailed g _ | OutOfBounds g _ => g
  end.

Definition log_of {A} (o : outcome A) : list event :=
  match o with
  | Returned _ _ l | AssertFailed _ l | OutOfBounds _ l => l
  end.

(** A store to an integer variable. *)
Definition store (x : ivar) (v : Z) (f : Z -> globals -> globals) : M unit :=
  modify (f v) ;; emit (EvStore x v).

(** C's operators on the [int] values that come from outside: the stream
    configuration, the results of the other modules, the two flags.  None
    of the operations below can leave the range of [int] when its operands
    are in it ([a - a % 16] lies between [0] and [a]). *)
Definition int_eq (a b : Z) : bool := a =? b.            (* a == b *)
Definition int_ne (a b : Z) : bool := negb (a =? b).     (* a != b *)
Definition int_lt (a b : Z) : bool := a <? b.            (* a < b *)
Definition int_gt (a b : Z) : bool := a >? b.            (* a > b *)
Definition int_sub (a b : Z) : Z := a - b.               (* a - b *)
Definition int_rem (a b : Z) : Z := Z.rem a b.           (* a % b, truncating *)

(** ** The other modules of the library *)

Record resolved := mkResolved {
  rr_err : Z;
  rr_addr : sockaddr_storage;
  rr_len : Z
}.

(** What [Connection.c] takes from outside itself.  A function that reads
    the library's shared variables takes the [globals] it is called with.
    [interruptDuring c] says whether another thread calls
    [LiInterruptConnection] while the call of [c] is in flight. *)
Record collaborators := mkCollaborators {
  LC_ASSERT_enabled : bool;
  extractVersionQuadFromString : string -> quad -> Z * quad;
  initializePlatform : globals -> Z;
  resolveHostName : string -> Z -> Z -> globals -> resolved;
  isPrivateNetworkAddress : sockaddr_storage -> Z;
  performRtspHandshake : globals -> Z;
  initializeControlStream : globals -> Z;
  startControlStream : globals -> Z;
  startVideoStream : Z -> Z -> globals -> Z;
  startAudioStream : Z -> Z -> globals -> Z;
  startInputStream : globals -> Z;
  PltCreateThread : globals -> Z;
  interruptDuring : callee -> bool
}.

(** Modelled from the spec: [fixupMissingCallbacks] of Misc.c (not under
    src/): "any unset caller callback is replaced by a no-op
    placeholder". *)
Definition fixupMissingCallbacks (cl : CONNECTION_LISTENER_CALLBACKS)
  : CONNECTION_LISTENER_CALLBACKS :=
  match connectionTerminated cl with
  | NullFn => mkListener PlaceholderFn
  | _ => cl
  end.

(** The value of [ConnectionInterrupted] once the call of [c] has returned,
    [v] being its value before: another thread may have run
    [LiInterruptConnection] in between. *)
Definition async_flag (env : collaborators) (c : callee) (v : Z) : Z :=
  if interruptDuring env c then 1 else v.

Arguments async_flag : simpl never.

Section Connection.

Variable env : collaborators.

(** Modelled from the spec: the macro [LC_ASSERT] of Limelight-internal.h
    (not under src/): a fatal assertion in debug builds, ignored in release
    builds. *)
Definition LC_ASSERT (c : bool) : M unit :=
  fun g => if c || negb (LC_ASSERT_enabled env)
           then Returned tt g [] else AssertFailed g [].

(** What the other threads are taken to do to the globals while the call
    of [c] is in flight: at most a call of [LiInterruptConnection].  The
    log is the log of the calling thread: it does not list their stores.
    A thread of the other modules that goes through the shim meanwhile is
    not part of these computations; [machine_step] below interleaves the
    statements of the shim with those of [LiStopConnection]. *)
Definition other_threads (c : callee) : M unit :=
  modify (fun g => set_ConnectionInterrupted
                     (async_flag env c (ConnectionInterrupted g)) g).

(** A call of a function that returns [int] ... *)
Definition call (c : callee) (f : globals -> Z) : M Z :=
  emit (EvCall c) ;;
  other_threads c ;;
  g <- get ;;
  ret (f g).

(** ... and of one whose result, if any, is not used. *)
Definition call_void (c : callee) : M unit :=
  emit (EvCall c) ;;
  other_threads c.

(** [arr[i]]. *)
Definition array_read {A} (arr : list A) (i : Z) : M A :=
  fun g =>
    if i <? 0 then OutOfBounds g []
    else match nth_error arr (Z.to_nat i) with
         | Some a => Returned a g []
         | None => OutOfBounds g []
         end.

(** *** Connection stages *)

Definition stageNames : list string :=
  [ "none";
    "platform initialization";
    "name resolution";
    "RTSP handshake";
    "control stream initialization";
    "video stream initialization";
    "audio stream initialization";
    "input stream initialization";
    "control stream establishment";
    "video stream establishment";
    "audio stream establishment";
    "input stream establishment" ]%string.

Definition LiGetStageName (stage : Z) : M string :=
  array_read stageNames stage.

(** *** Interrupt and stop *)

Definition LiInterruptConnection : M unit :=
  store v_ConnectionInterrupted 1 set_ConnectionInterrupted.

(** The stage counter.  It is compared and stepped with the operations of
    [Z] itself: it starts at [STAGE_NONE] and moves by one at a time. *)

(** [stage--] *)
Definition decr_stage : M unit :=
  g <- get ;;
  store v_stage (stage g - 1) set_stage.

(** [stage++] *)
Definition incr_stage : M unit :=
  g <- get ;;
  store v_stage (stage g + 1) set_stage.

(** [if (stage == s) { body }] *)
Definition if_stage (s : Z) (body : M unit) : M unit :=
  g <- get ;;
  if stage g =? s then body else ret tt.

(** [LC_ASSERT(stage == s)] *)
Definition assert_stage (s : Z) : M unit :=
  g <- get ;;
  LC_ASSERT (stage g =? s).

Definition free_RemoteAddrString : M unit :=
  g <- get ;;
  match RemoteAddrString g with
  | Some s => emit (EvFree s) ;; modify (set_RemoteAddrString None)
  | None => ret tt
  end.

(** The statements of [LiStopConnection], in program order. *)
Definition stop_steps : list (M unit) :=
  [ store v_alreadyTerminated 1 set_alreadyTerminated;
    LiInterruptConnection;
    if_stage STAGE_INPUT_STREAM_START (call_void c_stopInputStream ;; decr_stage);
    if_stage STAGE_AUDIO_STREAM_START (call_void c_stopAudioStream ;; decr_stage);
    if_stage STAGE_VIDEO_STREAM_START (call_void c_stopVideoStream ;; decr_stage);
    if_stage STAGE_CONTROL_STREAM_START (call_void c_stopControlStream ;; decr_stage);
    if_stage STAGE_INPUT_STREAM_INIT (call_void c_destroyInputStream ;; decr_stage);
    if_stage STAGE_AUDIO_STREAM_INIT (call_void c_destroyAudioStream ;; decr_stage);
    if_stage STAGE_VIDEO_STREAM_INIT (call_void c_destroyVideoStream ;; decr_stage);
    if_stage STAGE_CONTROL_STREAM_INIT (call_void c_destroyControlStream ;; decr_stage);
    if_stage STAGE_RTSP_HANDSHAKE decr_stage;
    if_stage STAGE_NAME_RESOLUTION decr_stage;
    if_stage STAGE_PLATFORM_INIT (call_void c_cleanupPlatform ;; decr_stage);
    assert_stage STAGE_NONE;
    free_RemoteAddrString ].

Fixpoint run_steps (steps : list (M unit)) : M unit :=
  match steps with
  | [] => ret tt
  | s :: rest => s ;; run_steps rest
  end.

Definition LiStopConnection : M unit := run_steps stop_steps.

(** *** The termination callback shim *)

(** The body of the "AsyncTerm" thread: the handler it calls and the
    argument it calls it with. *)
Definition terminationCallbackThreadFunc : M (fnptr * Z) :=
  g <- get ;;
  ret (originalTerminationCallback g, terminationCallbackErrorCode g).

Definition ClInternalConnectionTerminated (errorCode : Z) : M unit :=
  g <- get ;;
  if int_ne (alreadyTerminated g) 0 || int_ne (ConnectionInterrupted g) 0 then ret tt else
  store v_terminationCallbackErrorCode errorCode set_terminationCallbackErrorCode ;;
  store v_alreadyTerminated 1 set_alreadyTerminated ;;
  g1 <- get ;;
  let err := PltCreateThread env g1 in
  emit (EvCreateThread "AsyncTerm" err) ;;
  (if int_ne err 0 then LC_ASSERT (int_eq err 0) else ret tt) ;;
  call_void c_PltCloseThread.

(** *** Start *)

(** [err = ...; goto Cleanup;] ends the body of [LiStartConnection] with
    [err]; so does reaching the label from the statement above it. *)
Definition goto_Cleanup (err : Z) : M Z := ret err.

(** [LiStartConnection] down to the label [Cleanup]. *)
Definition LiStartConnection_body
    (serverInfo : SERVER_INFORMATION) (streamConfig : STREAM_CONFIGURATION)
    (clCallbacks : CONNECTION_LISTENER_CALLBACKS)
    (renderContext drFlags audioContext arFlags : Z) : M Z :=
  store v_NegotiatedVideoFormat 0 set_NegotiatedVideoFormat ;;
  modify (set_StreamConfig streamConfig) ;; emit (EvCopy o_StreamConfig) ;;
  store v_OriginalVideoBitrate (bitrate streamConfig) set_OriginalVideoBitrate ;;
  modify (set_RemoteAddrString (Some (address serverInfo))) ;;
  emit (EvStrdup (address serverInfo)) ;;

  g <- get ;;
  store v_packetSize
        (int_sub (packetSize (StreamConfig g))
                 (int_rem (packetSize (StreamConfig g)) 16))
        (fun v g => set_StreamConfig (set_packetSize v (StreamConfig g)) g) ;;

  g <- get ;;
  if int_eq (packetSize (StreamConfig g)) 0 then goto_Cleanup (-1) else

  emit (EvCall c_extractVersionQuadFromString) ;;
  g <- get ;;
  let parsed := extractVersionQuadFromString env (serverInfoAppVersion serverInfo)
                                             (AppVersionQuad g) in
  modify (set_AppVersionQuad (snd parsed)) ;;
  if int_lt (fst parsed) 0 then goto_Cleanup (-1) else

  emit (EvCall c_fixupMissingCallbacks) ;;
  let clCallbacks := fixupMissingCallbacks clCallbacks in
  emit (EvCopy o_VideoCallbacks) ;;
  emit (EvCopy o_AudioCallbacks) ;;

  modify (set_originalTerminationCallback (connectionTerminated clCallbacks)) ;;
  emit (EvCopy o_originalTerminationCallback) ;;
  modify (set_ListenerCallbacks clCallbacks) ;; emit (EvCopy o_ListenerCallbacks) ;;
  modify (set_ListenerCallbacks (mkListener ShimFn)) ;;
  emit (EvCopy o_connectionTerminated) ;;

  store v_alreadyTerminated 0 set_alreadyTerminated ;;
  store v_ConnectionInterrupted 0 set_ConnectionInterrupted ;;

  emit (EvStageStarting STAGE_PLATFORM_INIT) ;;
  err <- call c_initializePlatform (initializePlatform env) ;;
  if int_ne err 0 then
    emit (EvStageFailed STAGE_PLATFORM_INIT err) ;; goto_Cleanup err
  else
  incr_stage ;;
  assert_stage STAGE_PLATFORM_INIT ;;
  emit (EvStageComplete STAGE_PLATFORM_INIT) ;;

  emit (EvStageStarting STAGE_NAME_RESOLUTION) ;;
  emit (EvCall c_resolveHostName) ;;
  other_threads c_resolveHostName ;;
  g <- get ;;
  let r := resolveHostName env (address serverInfo) AF_UNSPEC 47984 g in
  modify (set_RemoteAddr (rr_addr r) (rr_len r)) ;;
  let err := rr_err r in
  if int_ne err 0 then
    emit (EvStageFailed STAGE_NAME_RESOLUTION err) ;; goto_Cleanup err
  else
  incr_stage ;;
  assert_stage STAGE_NAME_RESOLUTION ;;
  emit (EvStageComplete STAGE_NAME_RESOLUTION) ;;

  g <- get ;;
  (if int_eq (streamingRemotely (StreamConfig g)) STREAM_CFG_AUTO then
     emit (EvCall c_isPrivateNetworkAddress) ;;
     if int_ne (isPrivateNetworkAddress env (RemoteAddr g)) 0 then
       store v_streamingRemotely STREAM_CFG_LOCAL
             (fun v g => set_StreamConfig (set_streamingRemotely v (StreamConfig g)) g)
     else
       store v_streamingRemotely STREAM_CFG_REMOTE
             (fun v g => set_StreamConfig (set_streamingRemotely v (StreamConfig g)) g) ;;
       g <- get ;;
       if int_gt (packetSize (StreamConfig g)) 1024 then
         store v_packetSize 1024
               (fun v g => set_StreamConfig (set_packetSize v (StreamConfig g)) g)
       else ret tt
   else ret tt) ;;

  emit (EvStageStarting STAGE_RTSP_HANDSHAKE) ;;
  err <- call c_performRtspHandshake (performRtspHandshake env) ;;
  if int_ne err 0 then
    emit (EvStageFailed STAGE_RTSP_HANDSHAKE err) ;; goto_Cleanup err
  else
  incr_stage ;;
  assert_stage STAGE_RTSP_HANDSHAKE ;;
  emit (EvStageComplete STAGE_RTSP_HANDSHAKE) ;;

  emit (EvStageStarting STAGE_CONTROL_STREAM_INIT) ;;
  err <- call c_initializeControlStream (initializeControlStream env) ;;
  if int_ne err 0 then
    emit (EvStageFailed STAGE_CONTROL_STREAM_INIT err) ;; goto_Cleanup err
  else
  incr_stage ;;
  assert_stage STAGE_CONTROL_STREAM_INIT ;;
  emit (EvStageComplete STAGE_CONTROL_STREAM_INIT) ;;

  emit (EvStageStarting STAGE_VIDEO_STREAM_INIT) ;;
  call_void c_initializeVideoStream ;;
  incr_stage ;;
  assert_stage STAGE_VIDEO_STREAM_INIT ;;
  emit (EvStageComplete STAGE_VIDEO_STREAM_INIT) ;;

  emit (EvStageStarting STAGE_AUDIO_STREAM_INIT) ;;
  call_void c_initializeAudioStream ;;
  incr_stage ;;
  assert_stage STAGE_AUDIO_STREAM_INIT ;;
  emit (EvStageComplete STAGE_AUDIO_STREAM_INIT) ;;

  emit (EvStageStarting STAGE_INPUT_STREAM_INIT) ;;
  call_void c_initializeInputStream ;;
  incr_stage ;;
  assert_stage STAGE_INPUT_STREAM_INIT ;;
  emit (EvStageComplete STAGE_INPUT_STREAM_INIT) ;;

  emit (EvStageStarting STAGE_CONTROL_STREAM_START) ;;
  err <- call c_startControlStream (startControlStream env) ;;
  if int_ne err 0 then
    emit (EvStageFailed STAGE_CONTROL_STREAM_START err) ;; goto_Cleanup err
  else
  incr_stage ;;
  assert_stage STAGE_CONTROL_STREAM_START ;;
  emit (EvStageComplete STAGE_CONTROL_STREAM_START) ;;

  emit (EvStageStarting STAGE_VIDEO_STREAM_START) ;;
  err <- call c_startVideoStream (startVideoStream env renderContext drFlags) ;;
  if int_ne err 0 then
    emit (EvStageFailed STAGE_VIDEO_STREAM_START err) ;; goto_Cleanup err
  else
  incr_stage ;;
  assert_stage STAGE_VIDEO_STREAM_START ;;
  emit (EvStageComplete STAGE_VIDEO_STREAM_START) ;;

  emit (EvStageStarting STAGE_AUDIO_STREAM_START) ;;
  err <- call c_startAudioStream (startAudioStream env audioContext arFlags) ;;
  if int_ne err 0 then
    emit (EvStageFailed STAGE_AUDIO_STREAM_START err) ;; goto_Cleanup err
  else
  incr_stage ;;
  assert_stage STAGE_AUDIO_STREAM_START ;;
  emit (EvStageComplete STAGE_AUDIO_STREAM_START) ;;

  emit (EvStageStarting STAGE_INPUT_STREAM_START) ;;
  err <- call c_startInputStream (startInputStream env) ;;
  if int_ne err 0 then
    emit (EvStageFailed STAGE_INPUT_STREAM_START err) ;; goto_Cleanup err
  else
  incr_stage ;;
  assert_stage STAGE_INPUT_STREAM_START ;;
  emit (EvStageComplete STAGE_INPUT_STREAM_START) ;;

  emit (EvMouseMove 1 1) ;;
  emit (EvSleepMs 10) ;;
  emit (EvMouseMove (-1) (-1)) ;;
  emit (EvSleepMs 10) ;;

  emit EvConnectionStarted ;;

  goto_Cleanup err.

(** [LiStartConnection]: the body, then the statements at [Cleanup]. *)
Definition LiStartConnection
    (serverInfo : SERVER_INFORMATION) (streamConfig : STREAM_CONFIGURATION)
    (clCallbacks : CONNECTION_LISTENER_CALLBACKS)
    (renderContext drFlags audioContext arFlags : Z) : M Z :=
  err <- LiStartConnection_body serverInfo streamConfig clCallbacks
                                renderContext drFlags audioContext arFlags ;;
  (if int_ne err 0 then LiStopConnection else ret tt) ;;
  ret err.

End Connection.

(** ** Reading the log *)

(** The calls through the caller's callback bundle, and the hand-over of
    a termination notification to the "AsyncTerm" thread. *)
Definition is_callback (e : event) : bool :=
  match e with
  | EvStageStarting _ | EvStageComplete _ | EvStageFailed _ _
  | EvConnectionStarted | EvCreateThread _ _ => true
  | _ => false
  end.

Definition callbacks (log : list event) : list event := filter is_callback log.

(** The stop, destroy and cleanup operations of the other modules. *)
Definition is_teardown (c : callee) : bool :=
  match c with
  | c_stopInputStream | c_stopAudioStream | c_stopVideoStream
  | c_stopControlStream | c_destroyInputStream | c_destroyAudioStream
  | c_destroyVideoStream | c_destroyControlStream | c_cleanupPlatform => true
  | _ => false
  end.

Definition teardown_calls (log : list event) : list callee :=
  flat_map (fun e => match e with
                     | EvCall c => if is_teardown c then [c] else []
                     | _ => []
                     end) log.

(** The stages reported complete, and the stages reported starting. *)
Definition completed_stages (log : list event) : list Z :=
  flat_map (fun e => match e with EvStageComplete s => [s] | _ => [] end) log.

Definition started_stages (log : list event) : list Z :=
  flat_map (fun e => match e with EvStageStarting s => [s] | _ => [] end) log.

(** The pointer events and pauses. *)
Definition is_input_event (e : event) : bool :=
  match e with
  | EvMouseMove _ _ | EvSleepMs _ => true
  | _ => false
  end.

(** The termination notifications handed over to a new thread. *)
Definition is_dispatch (e : event) : bool :=
  match e with
  | EvCreateThread _ err => err =? 0
  | _ => false
  end.

Definition dispatches (log : list event) : nat :=
  List.length (filter is_dispatch log).

(** The stages [1 .. k], in the order [LiStartConnection] goes through
    them. *)
Definition stages_upto (k : Z) : list Z :=
  map Z.of_nat (seq 1 (Z.to_nat k)).

(** The teardown operation that undoes a stage; the name resolution and
    the RTSP handshake leave nothing to undo. *)
Definition teardown_for (s : Z) : list callee :=
  if s =? STAGE_PLATFORM_INIT then [c_cleanupPlatform]
  else if s =? STAGE_CONTROL_STREAM_INIT then [c_destroyControlStream]
  else if s =? STAGE_VIDEO_STREAM_INIT then [c_destroyVideoStream]
  else if s =? STAGE_AUDIO_STREAM_INIT then [c_destroyAudioStream]
  else if s =? STAGE_INPUT_STREAM_INIT then [c_destroyInputStream]
  else if s =? STAGE_CONTROL_STREAM_START then [c_stopControlStream]
  else if s =? STAGE_VIDEO_STREAM_START then [c_stopVideoStream]
  else if s =? STAGE_AUDIO_STREAM_START then [c_stopAudioStream]
  else if s =? STAGE_INPUT_STREAM_START then [c_stopInputStream]
  else [].

Definition ivar_eqb (x y : ivar) : bool :=
  match x, y with
  | v_stage, v_stage
  | v_alreadyTerminated, v_alreadyTerminated
  | v_terminationCallbackErrorCode, v_terminationCallbackErrorCode
  | v_NegotiatedVideoFormat, v_NegotiatedVideoFormat
  | v_ConnectionInterrupted, v_ConnectionInterrupted
  | v_OriginalVideoBitrate, v_OriginalVideoBitrate
  | v_packetSize, v_packetSize
  | v_streamingRemotely, v_streamingRemotely => true
  | _, _ => false
  end.

(** The values stored to an integer variable, in order. *)
Definition stores_of (x : ivar) (log : list event) : list Z :=
  flat_map (fun e => match e with
                     | EvStore y v => if ivar_eqb x y then [v] else []
                     | _ => []
                     end) log.

(** What the log holds after the first event that satisfies [p] ... *)
Fixpoint after_first (p : event -> bool) (log : list event) : list event :=
  match log with
  | [] => []
  | e :: rest => if p e then rest else after_first p rest
  end.

(** ... and before the first event that satisfies [q]. *)
Fixpoint before_first (q : event -> bool) (log : list event) : list event :=
  match log with
  | [] => []
  | e :: rest => if q e then [] else e :: before_first q rest
  end.

Definition is_stage_complete (s : Z) (e : event) : bool :=
  match e with EvStageComplete s' => s' =? s | _ => false end.

Definition is_stage_starting (s : Z) (e : event) : bool :=
  match e with EvStageStarting s' => s' =? s | _ => false end.

(** The events between the completion of stage [s] and the start of the
    next stage. *)
Definition between_stages (s : Z) (log : list event) : list event :=
  before_first (is_stage_starting (s + 1)) (after_first (is_stage_complete s) log).

(** ** Threads *)

(** What can happen, one step at a time, while the thread of the caller is
    or is not inside [LiStopConnection]: that thread enters
    [LiStopConnection] or executes its next statement, or another thread
    reports the end of the connection through
    [ListenerCallbacks.connectionTerminated], or calls
    [LiInterruptConnection]. *)
Inductive thread_step :=
| EnterStop
| StopStep
| Terminated (errorCode : Z)
| Interrupt.

(** [pending] holds the statements of [LiStopConnection] that the thread
    of the caller has still to execute.  A call of the shim runs here from
    its test to its return with no other thread in between; [machine_step]
    below takes the shim one statement at a time. *)
Fixpoint interleave (env : collaborators) (sched : list thread_step)
    (pending : list (M unit)) : M unit :=
  match sched with
  | [] => ret tt
  | EnterStop :: sched' => interleave env sched' (pending ++ stop_steps env)
  | StopStep :: sched' =>
      match pending with
      | [] => interleave env sched' []
      | s :: pending' => s ;; interleave env sched' pending'
      end
  | Terminated errorCode :: sched' =>
      ClInternalConnectionTerminated env errorCode ;; interleave env sched' pending
  | Interrupt :: sched' =>
      LiInterruptConnection ;; interleave env sched' pending
  end.

(** The termination callback shim lets nothing through in [g]. *)
Definition gate_closed (g : globals) : Prop :=
  alreadyTerminated g <> 0 \/ ConnectionInterrupted g <> 0.

(** A statement that hands over no termination notification and does not
    reopen the shim. *)
Definition quiet (m : M unit) : Prop :=
  forall g,
    dispatches (log_of (m g)) = 0%nat /\
    (gate_closed g -> gate_closed (final_globals (m g))).

(** ** Conditions on the inputs *)

(** The packet size after [StreamConfig.packetSize -= StreamConfig.packetSize % 16]. *)
Definition rounded_packetSize (streamConfig : STREAM_CONFIGURATION) : Z :=
  packetSize streamConfig - Z.rem (packetSize streamConfig) 16.

(** The two checks of [LiStartConnection] that come before the first
    stage. *)
Definition valid_packetSize (streamConfig : STREAM_CONFIGURATION) : Prop :=
  rounded_packetSize streamConfig <> 0.

Definition valid_appversion (env : collaborators) (serverInfo : SERVER_INFORMATION)
    (g : globals) : Prop :=
  0 <= fst (extractVersionQuadFromString env (serverInfoAppVersion serverInfo)
                                         (AppVersionQuad g)).

(** Every operation of the other modules that can fail succeeds, whatever
    the globals it is called with. *)
Definition collaborators_succeed (env : collaborators)
    (renderContext drFlags audioContext arFlags : Z) : Prop :=
  forall g,
    initializePlatform env g = 0 /\
    (forall a f p, rr_err (resolveHostName env a f p g) = 0) /\
    performRtspHandshake env g = 0 /\
    initializeControlStream env g = 0 /\
    startControlStream env g = 0 /\
    startVideoStream env renderContext drFlags g = 0 /\
    startAudioStream env audioContext arFlags g = 0 /\
    startInputStream env g = 0.

(** ** Example inputs *)

(** The variables as the program starts: static storage is zeroed, and
    [stage] is initialised to [STAGE_NONE]. *)
Definition initial_globals : globals :=
  mkGlobals STAGE_NONE NullFn 0 0 None [] 0 (0, 0, 0, 0)
            (mkStreamConfig 0 0 0) (mkListener NullFn) 0 0 0.

(** The variables after a session that was started and stopped. *)
Definition stopped_globals : globals :=
  mkGlobals STAGE_NONE (UserFn 1) 1 0 None [192; 168; 1; 20] 4 (7, 1, 431, 0)
            (mkStreamConfig 1392 STREAM_CFG_LOCAL 20000) (mkListener ShimFn) 0 1 20000.

Definition example_server : SERVER_INFORMATION :=
  mkServerInfo "192.168.1.20" "7.1.431.0".

Definition example_config (size mode : Z) : STREAM_CONFIGURATION :=
  mkStreamConfig size mode 20000.

Definition example_listener : CONNECTION_LISTENER_CALLBACKS :=
  mkListener (UserFn 1).

(** Other modules whose fallible operations return [result c g], that
    resolve the host to [addr], and that take [addr] for a private address
    when [private] is not zero. *)
Definition example_env (asserts : bool) (result : callee -> globals -> Z)
    (addr : sockaddr_storage) (private : Z) (interrupts : callee -> bool)
  : collaborators :=
  mkCollaborators asserts
    (fun _ _ => (result c_extractVersionQuadFromString initial_globals, (7, 1, 431, 0)))
    (result c_initializePlatform)
    (fun _ _ _ g => mkResolved (result c_resolveHostName g) addr 4)
    (fun _ => private)
    (result c_performRtspHandshake)
    (result c_initializeControlStream)
    (result c_startControlStream)
    (fun _ _ => result c_startVideoStream)
    (fun _ _ => result c_startAudioStream)
    (result c_startInputStream)
    (fun _ => 0)
    interrupts.

(** Everything succeeds; the host is on the local network. *)
Definition ok_env : collaborators :=
  example_env true (fun _ _ => 0) [192; 168; 1; 20] 1 (fun _ => false).

(** Everything succeeds; the host is not on a private network. *)
Definition remote_env : collaborators :=
  example_env true (fun _ _ => 0) [93; 184; 216; 34] 0 (fun _ => false).

(** The video stream fails to start. *)
Definition video_fails_env : collaborators :=
  example_env true
    (fun c _ => match c with c_startVideoStream => -5 | _ => 0 end)
    [192; 168; 1; 20] 1 (fun _ => false).

(** The version string is malformed. *)
Definition bad_version_env : collaborators :=
  example_env true
    (fun c _ => match c with c_extractVersionQuadFromString => -1 | _ => 0 end)
    [192; 168; 1; 20] 1 (fun _ => false).




(** Modules that succeed whatever they are called with, while another
    thread requests the interrupt during every one of their operations. *)
Definition deaf_env : collaborators :=
  example_env true (fun _ _ => 0) [192; 168; 1; 20] 1 (fun _ => true).

(** The variables while a session is live. *)
Definition live_globals : globals :=
  mkGlobals STAGE_INPUT_STREAM_START (UserFn 1) 0 0 (Some "192.168.1.20"%string)
            [192; 168; 1; 20] 4 (7, 1, 431, 0)
            (mkStreamConfig 1392 STREAM_CFG_LOCAL 20000) (mkListener ShimFn) 0 0 20000.

(** The thread for the termination callback cannot be created; release
    build. *)
Definition no_thread_env : collaborators :=
  mkCollaborators false (fun _ q => (0, q)) (fun _ => 0)
    (fun _ _ _ _ => mkResolved 0 [] 0) (fun _ => 0) (fun _ => 0) (fun _ => 0)
    (fun _ => 0) (fun _ _ _ => 0) (fun _ _ _ => 0) (fun _ => 0)
    (fun _ => 11) (fun _ => false).

(** ** What [LiStartConnection] logs before the first stage *)

(** Down to the check of the rounded packet size ... *)
Definition validation_log (serverInfo : SERVER_INFORMATION)
    (streamConfig : STREAM_CONFIGURATION) : list event :=
  [ EvStore v_NegotiatedVideoFormat 0;
    EvCopy o_StreamConfig;
    EvStore v_OriginalVideoBitrate (bitrate streamConfig);
    EvStrdup (address serverInfo);
    EvStore v_packetSize (rounded_packetSize streamConfig) ].

(** ... and from there to the reset of the two flags. *)
Definition hooking_log : list event :=
  [ EvCall c_extractVersionQuadFromString;
    EvCall c_fixupMissingCallbacks;
    EvCopy o_VideoCallbacks;
    EvCopy o_AudioCallbacks;
    EvCopy o_originalTerminationCallback;
    EvCopy o_ListenerCallbacks;
    EvCopy o_connectionTerminated ].

(** The callbacks of a stage that completes. *)
Definition stage_callbacks (s : Z) : list event :=
  [EvStageStarting s; EvStageComplete s].

(** ** More readings of the log *)

(** The decrements of the stage counter on the way down from [k]. *)
Definition stages_below (k : Z) : list Z := map Z.pred (rev (stages_upto k)).


Definition is_stage_operation (c : callee) : bool :=
  match c with
  | c_initializePlatform | c_resolveHostName | c_performRtspHandshake
  | c_initializeControlStream | c_initializeVideoStream
  | c_initializeAudioStream | c_initializeInputStream
  | c_startControlStream | c_startVideoStream
  | c_startAudioStream | c_startInputStream => true
  | _ => false
  end.




(** The allocations and releases of the address string. *)
Definition heap_events (log : list event) : list event :=
  filter (fun e => match e with
                   | EvStrdup _ | EvFree _ => true
                   | _ => false
                   end) log.

(** A statement that leaves the recorded notification alone: the error
    code and the handler that the "AsyncTerm" thread reads. *)
Definition keeps_notification (m : M unit) : Prop :=
  forall g,
    terminationCallbackErrorCode (final_globals (m g)) = terminationCallbackErrorCode g /\
    originalTerminationCallback (final_globals (m g)) = originalTerminationCallback g.

(** The variables after two successful calls of [LiStartConnection] in a
    row, in a build without assertions. *)
Definition overrun_globals : globals :=
  mkGlobals (2 * STAGE_INPUT_STREAM_START) (UserFn 1) 0 0 (Some "192.168.1.20"%string)
            [192; 168; 1; 20] 4 (7, 1, 431, 0)
            (mkStreamConfig 1392 STREAM_CFG_LOCAL 20000) (mkListener ShimFn) 0 0 20000.

(** Modules that always succeed, in a build without assertions. *)
Definition release_env : collaborators :=
  mkCollaborators false (fun _ q => (0, q)) (fun _ => 0)
    (fun _ _ _ _ => mkResolved 0 [192; 168; 1; 20] 4) (fun _ => 1) (fun _ => 0)
    (fun _ => 0) (fun _ => 0) (fun _ _ _ => 0) (fun _ _ _ => 0) (fun _ => 0)
    (fun _ => 0) (fun _ => false).

(** An address on a private network, for the examples: 10.x.x.x and
    192.168.x.x. *)
Definition example_private (addr : sockaddr_storage) : Z :=
  match addr with
  | a :: b :: _ => if (a =? 10) || ((a =? 192) && (b =? 168)) then 1 else 0
  | _ => 0
  end.

(** Everything succeeds; the host name now resolves to an address that is
    not on a private network, and the addresses are told apart by
    [example_private]. *)
Definition roaming_env : collaborators :=
  mkCollaborators true (fun _ _ => (0, (7, 1, 431, 0))) (fun _ => 0)
    (fun _ _ _ _ => mkResolved 0 [93; 184; 216; 34] 4) example_private
    (fun _ => 0) (fun _ => 0) (fun _ => 0) (fun _ _ _ => 0) (fun _ _ _ => 0)
    (fun _ => 0) (fun _ => 0) (fun _ => false).

(** ** The threads, one statement at a time *)

(** The statement that a thread inside [ClInternalConnectionTerminated]
    executes next.  The test [alreadyTerminated || ConnectionInterrupted]
    reads the two variables one after the other; the call of
    [PltCreateThread] and the test of its result, which is a local
    variable, make one statement. *)
Inductive shim_pc :=
| AtTestTerminated
| AtTestInterrupted
| AtStoreErrorCode
| AtStoreTerminated
| AtCreateThread
| AtCloseThread
| ShimReturned.



(** What the threads do that the caller can observe: its own thread calls
    [LiStopConnection] and returns from it, [PltCreateThread] starts an
    "AsyncTerm" thread, and such a thread calls the handler. *)
Inductive action :=
| StopCalled
| StopReturned
| ThreadCreated
| HandlerCalled (handler : fnptr) (errorCode : Z).

(** The variables that the threads share, the statements of
    [LiStopConnection] that the thread of the caller has still to execute,
    the threads inside the shim with the argument and the next statement of
    each, the number of "AsyncTerm" threads that have not run yet, what
    happened so far, and whether a failed assertion has ended the
    process. *)
Record machine := mkMachine {
  shared : globals;
  caller : list (M unit);
  reporters : list (nat * (Z * shim_pc));
  workers : nat;
  history : list action;
  trace : list event;
  aborted : bool
}.









Definition handler_calls (st : machine) : list (fnptr * Z) :=
  flat_map (fun a => match a with
                     | HandlerCalled handler errorCode => [(handler, errorCode)]
                     | _ => []
                     end) (history st).











(** * Proofs *)

(** ** Running the model on symbolic inputs *)

(** [stuck_cond o] is the condition on which the evaluation of the
    outcome [o] waits. *)
Ltac stuck_cond t :=
  lazymatch t with
  | Returned _ _ _ => t
  | AssertFailed _ _ => t
  | OutOfBounds _ _ => t
  | (if ?c then _ else _) => stuck_cond c
  | (match ?s with
     | Returned _ _ _ => _ | AssertFailed _ _ => _ | OutOfBounds _ _ => _
     end) => stuck_cond s
  | (if ?c then _ else _) _ => stuck_cond c
  | _ => t
  end.

(** Evaluation of the model that leaves alone what depends on the other
    modules and on the [int] values that come from outside. *)
Declare Reduction run_model :=
  cbv -[async_flag int_eq int_ne int_lt int_gt int_sub int_rem
        LC_ASSERT_enabled extractVersionQuadFromString
        initializePlatform resolveHostName isPrivateNetworkAddress
        performRtspHandshake initializeControlStream
        startControlStream startVideoStream startAudioStream
        startInputStream PltCreateThread interruptDuring
        rr_err rr_addr rr_len fst snd
        fixupMissingCallbacks connectionTerminated].

(** Evaluate the outcome in a goal [P o]; evaluate the whole goal. *)
Ltac eval_outcome :=
  lazymatch goal with
  | |- ?P ?o => let o' := eval run_model in o in change (P o')
  end.

Ltac run_goal :=
  lazymatch goal with
  | |- ?G => let G' := eval run_model in G in change G'
  end.

(** A comparison of two numerals is evaluated, not split on. *)
Ltac numeral a :=
  lazymatch a with
  | Z0 => idtac
  | Zpos _ => idtac
  | Zneg _ => idtac
  end.

Ltac known_cond c :=
  lazymatch c with
  | int_ne ?a ?b => numeral a; numeral b
  | int_eq ?a ?b => numeral a; numeral b
  | int_lt ?a ?b => numeral a; numeral b
  | int_gt ?a ?b => numeral a; numeral b
  end.

Ltac split_on c :=
  first [ known_cond c; let v := eval cbv in c in change c with v
        | destruct c eqn:? ].

(** Evaluate, split on the condition evaluation waits on, and go on in
    both cases. *)
Ltac symex :=
  eval_outcome;
  lazymatch goal with
  | |- ?P ?o =>
      let c := stuck_cond o in
      lazymatch c with
      | Returned _ _ _ => idtac
      | AssertFailed _ _ => idtac
      | OutOfBounds _ _ => idtac
      | _ => split_on c; symex
      end
  end.

(** The same for a goal that mentions the computation [t] anywhere.  Each
    case also gets [Hrun : t = o], for the outcome [o] of that case. *)
Ltac symex_on t :=
  let b := fresh "run" in
  let Hrun := fresh "Hrun" in
  pose (b := t);
  assert (Hrun : b = t) by reflexivity;
  revert Hrun; pattern t;
  lazymatch goal with
  | |- ?P _ =>
      let Q := fresh "Q" in
      set (Q := P); symex; subst Q; cbv beta; intros Hrun; subst b
  end.


(** Name the fields of the inputs. *)
Ltac open_inputs g si cfg cl :=
  destruct g as [st otc at_ code ras ra ral avq sc lc nvf ci ovb];
  destruct si as [addr ver]; destruct cfg as [ps mode br]; destruct cl as [ct];
  cbn [stage packetSize streamingRemotely bitrate address serverInfoAppVersion
       AppVersionQuad ConnectionInterrupted alreadyTerminated] in *.

(** ** The [int] operators *)

Lemma int_ne_true a b : int_ne a b = true <-> a <> b.
Proof. unfold int_ne. rewrite negb_true_iff. apply Z.eqb_neq. Qed.

Lemma int_ne_false a b : int_ne a b = false <-> a = b.
Proof. unfold int_ne. rewrite negb_false_iff. apply Z.eqb_eq. Qed.

Lemma int_eq_true a b : int_eq a b = true <-> a = b.
Proof. apply Z.eqb_eq. Qed.

Lemma int_eq_false a b : int_eq a b = false <-> a <> b.
Proof. apply Z.eqb_neq. Qed.

Lemma int_lt_true a b : int_lt a b = true <-> a < b.
Proof. apply Z.ltb_lt. Qed.

Lemma int_lt_false a b : int_lt a b = false <-> b <= a.
Proof. apply Z.ltb_ge. Qed.

Lemma int_gt_true a b : int_gt a b = true <-> b < a.
Proof. unfold int_gt. rewrite Z.gtb_ltb. apply Z.ltb_lt. Qed.

Lemma int_gt_false a b : int_gt a b = false <-> a <= b.
Proof. unfold int_gt. rewrite Z.gtb_ltb. apply Z.ltb_ge. Qed.

(** Turn what is known about the conditions into (in)equalities on [Z]. *)
Ltac conds :=
  repeat match goal with
    | H : int_ne _ _ = true |- _ => apply int_ne_true in H
    | H : int_ne _ _ = false |- _ => apply int_ne_false in H
    | H : int_eq _ _ = true |- _ => apply int_eq_true in H
    | H : int_eq _ _ = false |- _ => apply int_eq_false in H
    | H : int_lt _ _ = true |- _ => apply int_lt_true in H
    | H : int_lt _ _ = false |- _ => apply int_lt_false in H
    | H : int_gt _ _ = true |- _ => apply int_gt_true in H
    | H : int_gt _ _ = false |- _ => apply int_gt_false in H
    end.

(** ** Interrupts from other threads *)

Lemma async_flag_set env c : async_flag env c 1 = 1.
Proof. unfold async_flag. now destruct (interruptDuring env c). Qed.

(** ** [LiStopConnection] *)

Lemma stage_cases (k : Z) :
  0 <= k <= 11 ->
  k = 0 \/ k = 1 \/ k = 2 \/ k = 3 \/ k = 4 \/ k = 5 \/ k = 6 \/ k = 7 \/
  k = 8 \/ k = 9 \/ k = 10 \/ k = 11.
Proof. lia. Qed.

(** From any of the twelve stages, [LiStopConnection] returns with the
    stage back at [STAGE_NONE], both flags set and the address string
    freed, after the teardown of the stages [stage g .. 1] in that order. *)
Lemma stop_run env g :
  0 <= stage g <= 11 ->
  exists log,
    LiStopConnection env g =
      Returned tt
        (set_RemoteAddrString None
           (set_stage STAGE_NONE
              (set_ConnectionInterrupted 1 (set_alreadyTerminated 1 g)))) log /\
    teardown_calls log = flat_map teardown_for (rev (stages_upto (stage g))) /\
    NoDup (teardown_calls log).
Proof.
  intros H. apply stage_cases in H.
  destruct g as [st otc at_ code ras ra ral avq sc lc nvf ci ovb]; cbn [stage] in *.
  repeat (destruct H as [-> | H]); [ .. | subst st ];
    destruct ras; eexists;
    (split; [ cbv -[async_flag]; rewrite ?async_flag_set; reflexivity
            | split; [ reflexivity
                     | cbv; repeat constructor; cbn; intuition discriminate ] ]).
Qed.

(** ** [LiStartConnection] from its body *)

Section StartFromBody.

Variable env : collaborators.
Variables (si : SERVER_INFORMATION) (cfg : STREAM_CONFIGURATION)
          (cl : CONNECTION_LISTENER_CALLBACKS) (rc df ac af : Z).

Lemma start_success g g1 log :
  LiStartConnection_body env si cfg cl rc df ac af g = Returned 0 g1 log ->
  LiStartConnection env si cfg cl rc df ac af g = Returned 0 g1 log.
Proof.
  intros H. unfold LiStartConnection, bind. rewrite H.
  cbv [int_ne Z.eqb negb ret prepend]. now rewrite !app_nil_r.
Qed.

Lemma start_failure g err g1 log g' stop_log :
  LiStartConnection_body env si cfg cl rc df ac af g = Returned err g1 log ->
  err <> 0 ->
  LiStopConnection env g1 = Returned tt g' stop_log ->
  LiStartConnection env si cfg cl rc df ac af g = Returned err g' (log ++ stop_log).
Proof.
  intros H Herr Hstop. unfold LiStartConnection, bind. rewrite H.
  apply int_ne_true in Herr. rewrite Herr, Hstop.
  cbv [ret prepend]. now rewrite !app_nil_r.
Qed.

(** The body of [LiStartConnection], entered at [STAGE_NONE], returns; it
    leaves the stage at the last stage it completed, and calls no
    teardown operation. *)
Lemma body_run g :
  stage g = STAGE_NONE ->
  exists err g1 log,
    LiStartConnection_body env si cfg cl rc df ac af g = Returned err g1 log /\
    0 <= stage g1 <= 11 /\
    completed_stages log = stages_upto (stage g1) /\
    teardown_calls log = [] /\
    (err = 0 -> stage g1 = STAGE_INPUT_STREAM_START) /\
    (stage g1 = STAGE_INPUT_STREAM_START -> err = 0) /\
    RemoteAddrString g1 = Some (address si).
Proof.
  intros H. open_inputs g si cfg cl. subst st.
  symex_on (LiStartConnection_body env (mkServerInfo addr ver) (mkStreamConfig ps mode br)
              (mkListener ct) rc df ac af
              (mkGlobals STAGE_NONE otc at_ code ras ra ral avq sc lc nvf ci ovb)).
  all: do 3 eexists; (split; [reflexivity|]); cbn [stage RemoteAddrString];
    conds; repeat split; try reflexivity; try lia; try discriminate;
    try (intros ->; congruence).
Qed.

End StartFromBody.

(** ** Failure of [LiStartConnection] *)

(** C1.  When [LiStartConnection], entered with no session active, returns
    a nonzero error, it has run [LiStopConnection] after its body, whatever
    the point of the failure (the two checks before the first stage
    included).  On return the stage is [STAGE_NONE]; the body has called no
    teardown operation, and [LiStopConnection] has called the teardown
    operations of exactly the stages that were completed, each once, in the
    reverse of the order in which the stages were completed. *)
Theorem start_failure_unwinds_completed_stages
    env si cfg cl rc df ac af g :
  stage g = STAGE_NONE ->
  exists err g1 body_log,
    LiStartConnection_body env si cfg cl rc df ac af g = Returned err g1 body_log /\
    teardown_calls body_log = [] /\
    completed_stages body_log = stages_upto (stage g1) /\
    (err <> 0 ->
     exists g' stop_log,
       LiStopConnection env g1 = Returned tt g' stop_log /\
       LiStartConnection env si cfg cl rc df ac af g
         = Returned err g' (body_log ++ stop_log) /\
       stage g' = STAGE_NONE /\
       teardown_calls stop_log
         = flat_map teardown_for (rev (completed_stages body_log)) /\
       NoDup (teardown_calls stop_log)).
Proof.
  intros H.
  destruct (body_run env si cfg cl rc df ac af g H)
    as (err & g1 & log & Hbody & Hrange & Hdone & Hquiet & _).
  exists err, g1, log. repeat split; try assumption.
  intros Herr.
  destruct (stop_run env g1 Hrange) as (stop_log & Hstop & Hcalls & Hnodup).
  eexists _, stop_log. split; [exact Hstop|].
  split; [exact (start_failure env si cfg cl rc df ac af g err g1 log _ _ Hbody Herr Hstop)|].
  split; [reflexivity|]. split; [|assumption].
  now rewrite Hdone.
Qed.

Lemma start_failure_unwinds_witness :
  exists g' log,
    LiStartConnection video_fails_env example_server
      (example_config 1392 STREAM_CFG_AUTO) example_listener 0 0 0 0 initial_globals
      = Returned (-5) g' log /\
    stage g' = STAGE_NONE /\
    completed_stages log = [1; 2; 3; 4; 5; 6; 7; 8] /\
    teardown_calls log
      = [c_stopControlStream; c_destroyInputStream; c_destroyAudioStream;
         c_destroyVideoStream; c_destroyControlStream; c_cleanupPlatform].
Proof.
  destruct (start_failure_unwinds_completed_stages video_fails_env example_server
              (example_config 1392 STREAM_CFG_AUTO) example_listener 0 0 0 0
              initial_globals eq_refl)
    as (err & g1 & body_log & Hbody & _ & _ & Hfail).
  vm_compute in Hbody. injection Hbody as <- <- <-.
  destruct (Hfail ltac:(discriminate)) as (g' & stop_log & Hstop & Hstart & Hstage & _).
  vm_compute in Hstop. injection Hstop as <- <-.
  eexists _, _. split; [exact Hstart|]. repeat split.
Defined.

(** ** [LiStopConnection] with no session *)

(** C3.  In every state in which the stage is [STAGE_NONE],
    [LiStopConnection] returns (it does not fail), calls no operation of
    the other modules, leaves the stage at [STAGE_NONE] and
    [RemoteAddrString] at [NULL]; called once more in the state it leaves,
    it only stores the two flags again and changes nothing. *)
Theorem stop_at_none_is_noop env g :
  stage g = STAGE_NONE ->
  exists g' log,
    LiStopConnection env g = Returned tt g' log /\
    teardown_calls log = [] /\
    (forall c, ~ In (EvCall c) log) /\
    stage g' = STAGE_NONE /\
    RemoteAddrString g' = None /\
    LiStopConnection env g'
      = Returned tt g' [EvStore v_alreadyTerminated 1; EvStore v_ConnectionInterrupted 1].
Proof.
  intros H.
  destruct g as [st otc at_ code ras ra ral avq sc lc nvf ci ovb]; cbn [stage] in H.
  subst st.
  destruct ras; eexists _, _; (split; [cbv; reflexivity|]);
    repeat split; cbn; intuition discriminate.
Qed.

Lemma stop_at_none_is_noop_witness :
  exists g' log,
    LiStopConnection ok_env initial_globals = Returned tt g' log /\
    teardown_calls log = [] /\
    (forall c, ~ In (EvCall c) log) /\
    stage g' = STAGE_NONE /\
    RemoteAddrString g' = None /\
    LiStopConnection ok_env g'
      = Returned tt g' [EvStore v_alreadyTerminated 1; EvStore v_ConnectionInterrupted 1].
Proof. apply (stop_at_none_is_noop ok_env initial_globals). reflexivity. Defined.

(** ** The stage names *)

(** C9, as the code has it.  [LiGetStageName] is a pure function: on each
    of the twelve stage ordinals, [STAGE_NONE] to
    [STAGE_INPUT_STREAM_START], it returns the label of that stage, and
    neither changes a variable nor logs an event.  It checks nothing: on any
    other argument it reads [stageNames] out of bounds, and no assertion
    is involved. *)
Theorem LiGetStageName_labels (s : Z) (g : globals) :
  (0 <= s < STAGE_MAX ->
   LiGetStageName s g = Returned (nth (Z.to_nat s) stageNames ""%string) g []) /\
  (s < 0 \/ STAGE_MAX <= s -> LiGetStageName s g = OutOfBounds g []) /\
  map (fun s => LiGetStageName s g) (STAGE_NONE :: stages_upto STAGE_INPUT_STREAM_START)
    = map (fun label => Returned label g [])
        [ "none"; "platform initialization"; "name resolution"; "RTSP handshake";
          "control stream initialization"; "video stream initialization";
          "audio stream initialization"; "input stream initialization";
          "control stream establishment"; "video stream establishment";
          "audio stream establishment"; "input stream establishment" ]%string.
Proof.
  unfold LiGetStageName, array_read. split; [|split]; [| |reflexivity].
  - intros H. unfold STAGE_MAX in H.
    destruct (Z.ltb_spec s 0); [lia|].
    assert (Hs : (Z.to_nat s < List.length stageNames)%nat) by (cbn; lia).
    destruct (nth_error stageNames (Z.to_nat s)) eqn:E.
    + now rewrite (nth_error_nth _ _ _ E).
    + apply nth_error_None in E. lia.
  - intros H.
    destruct (Z.ltb_spec s 0); [reflexivity|].
    destruct (nth_error stageNames (Z.to_nat s)) eqn:E; [|reflexivity].
    assert (Hsome : nth_error stageNames (Z.to_nat s) <> None) by congruence.
    apply nth_error_Some in Hsome. cbn in Hsome. unfold STAGE_MAX in H. lia.
Qed.

Lemma LiGetStageName_labels_witness :
  LiGetStageName STAGE_RTSP_HANDSHAKE initial_globals
    = Returned "RTSP handshake"%string initial_globals [] /\
  LiGetStageName (-1) initial_globals = OutOfBounds initial_globals [].
Proof.
  split.
  - apply (LiGetStageName_labels STAGE_RTSP_HANDSHAKE initial_globals). cbv. intuition discriminate.
  - apply (LiGetStageName_labels (-1) initial_globals). left. reflexivity.
Defined.

(** C9, as stated, fails: an out-of-range argument does not trip a fatal
    assertion.  [LiGetStageName (STAGE_MAX)] is an unchecked read past the
    end of [stageNames]. *)
Lemma LiGetStageName_out_of_range_not_asserted :
  LiGetStageName STAGE_MAX initial_globals = OutOfBounds initial_globals [] /\
  LiGetStageName STAGE_MAX initial_globals <> AssertFailed initial_globals [].
Proof. split; [reflexivity | discriminate]. Qed.

(** ** The checks before the first stage *)

(** Evaluate [Z.rem] where its arguments are numerals. *)
Ltac eval_rem :=
  repeat match goal with
    | H : context [Z.rem ?a ?b] |- _ =>
        let v := eval vm_compute in (Z.rem a b) in
        lazymatch v with
        | Z0 => idtac | Zpos _ => idtac | Zneg _ => idtac
        end;
        change (Z.rem a b) with v in *
    | |- context [Z.rem ?a ?b] =>
        let v := eval vm_compute in (Z.rem a b) in
        lazymatch v with
        | Z0 => idtac | Zpos _ => idtac | Zneg _ => idtac
        end;
        change (Z.rem a b) with v in *
    end.

(** C10.  When [LiStartConnection], entered with no session active, fails
    one of its two checks before the first stage (the rounded packet size
    is zero, or [extractVersionQuadFromString] reports a malformed version
    string), it returns [-1] in both cases, after running
    [LiStopConnection]: no callback of the caller is invoked and no
    termination notification is handed over, no teardown operation is
    called, the copy of the address string is freed and
    [RemoteAddrString] is [NULL], and the stage is still [STAGE_NONE]. *)
Theorem prestage_failure_is_silent env si cfg cl rc df ac af g :
  stage g = STAGE_NONE ->
  rounded_packetSize cfg = 0 \/
  fst (extractVersionQuadFromString env (serverInfoAppVersion si) (AppVersionQuad g)) < 0 ->
  exists g1 body_log g' stop_log,
    LiStartConnection_body env si cfg cl rc df ac af g = Returned (-1) g1 body_log /\
    LiStopConnection env g1 = Returned tt g' stop_log /\
    LiStartConnection env si cfg cl rc df ac af g
      = Returned (-1) g' (body_log ++ stop_log) /\
    callbacks (body_log ++ stop_log) = [] /\
    teardown_calls (body_log ++ stop_log) = [] /\
    In (EvStrdup (address si)) body_log /\
    In (EvFree (address si)) stop_log /\
    RemoteAddrString g' = None /\
    stage g' = STAGE_NONE.
Proof.
  intros H Hbad. unfold rounded_packetSize in Hbad.
  open_inputs g si cfg cl. subst st.
  symex_on (LiStartConnection_body env (mkServerInfo addr ver) (mkStreamConfig ps mode br)
              (mkListener ct) rc df ac af
              (mkGlobals STAGE_NONE otc at_ code ras ra ral avq sc lc nvf ci ovb)).
  all: conds; try (exfalso; unfold int_sub, int_rem in * |-; destruct Hbad; [congruence | lia]).
  all: eexists _, _, _, _; (split; [reflexivity|]);
    (split; [run_goal; reflexivity|]);
    (split; [eapply start_failure;
             [ exact Hrun | discriminate | run_goal; reflexivity ]|]);
    cbn; intuition.
Qed.

Lemma prestage_failure_is_silent_witness :
  (exists g' log,
     LiStartConnection ok_env example_server (example_config 8 STREAM_CFG_AUTO)
       example_listener 0 0 0 0 initial_globals = Returned (-1) g' log /\
     callbacks log = [] /\ RemoteAddrString g' = None /\ stage g' = STAGE_NONE) /\
  (exists g' log,
     LiStartConnection bad_version_env example_server (example_config 1392 STREAM_CFG_AUTO)
       example_listener 0 0 0 0 initial_globals = Returned (-1) g' log /\
     callbacks log = [] /\ RemoteAddrString g' = None /\ stage g' = STAGE_NONE).
Proof.
  split.
  - destruct (prestage_failure_is_silent ok_env example_server
                (example_config 8 STREAM_CFG_AUTO) example_listener 0 0 0 0
                initial_globals eq_refl (or_introl eq_refl))
      as (g1 & bl & g' & sl & _ & _ & Hstart & Hcb & _ & _ & _ & Haddr & Hstage).
    exists g', (bl ++ sl). repeat split; assumption.
  - destruct (prestage_failure_is_silent bad_version_env example_server
                (example_config 1392 STREAM_CFG_AUTO) example_listener 0 0 0 0
                initial_globals eq_refl (or_intror eq_refl))
      as (g1 & bl & g' & sl & _ & _ & Hstart & Hcb & _ & _ & _ & Haddr & Hstage).
    exists g', (bl ++ sl). repeat split; assumption.
Defined.

Lemma ok_env_succeeds : collaborators_succeed ok_env 0 0 0 0.
Proof. intros g. repeat split. Qed.

Lemma remote_env_succeeds : collaborators_succeed remote_env 0 0 0 0.
Proof. intros g. repeat split. Qed.

(** C5.  [LiStartConnection] rounds the packet size down to a multiple of
    16 and fails when the result is zero.  A packet size from 1 to 15 makes
    it fail with [-1], the error of an invalid configuration, before any
    stage starts and before any other module is called.  A packet size of
    16 or more passes the check: the version string is parsed next, the
    first stage starts when it is well formed, and the start returns 0 when
    every operation of the other modules succeeds.  16 stays 16; 1000
    becomes 992; 1025 becomes 1024, in remote mode as in any other, by the
    rounding alone.  The cap at 1024 comes after the rounding, and only
    where [STREAM_CFG_AUTO] has been settled as remote: the name resolution
    has completed, and the address that [resolveHostName] returned is not a
    private one; there the packet size ends as the smaller of the rounded
    size and 1024.  Everywhere else it ends as the rounded size. *)
Theorem packet_size_normalization env si cfg cl rc df ac af g :
  stage g = STAGE_NONE ->
  exists err g' log,
    LiStartConnection env si cfg cl rc df ac af g = Returned err g' log /\
    (1 <= packetSize cfg <= 15 ->
     err = -1 /\ started_stages log = [] /\ (forall c, ~ In (EvCall c) log) /\
     stage g' = STAGE_NONE) /\
    (16 <= packetSize cfg ->
     In (EvCall c_extractVersionQuadFromString) log /\
     (valid_appversion env si g ->
      hd_error (started_stages log) = Some STAGE_PLATFORM_INIT) /\
     (valid_appversion env si g -> collaborators_succeed env rc df ac af -> err = 0)) /\
    (packetSize cfg = 16 ->
     packetSize (StreamConfig g') = 16 /\ stores_of v_packetSize log = [16]) /\
    (packetSize cfg = 1000 ->
     packetSize (StreamConfig g') = 992 /\ stores_of v_packetSize log = [992]) /\
    (packetSize cfg = 1025 ->
     packetSize (StreamConfig g') = 1024 /\ stores_of v_packetSize log = [1024]) /\
    (In STAGE_NAME_RESOLUTION (completed_stages log) ->
     exists gk,
       RemoteAddr g' = rr_addr (resolveHostName env (address si) AF_UNSPEC 47984 gk)) /\
    (streamingRemotely cfg = STREAM_CFG_AUTO ->
     In STAGE_NAME_RESOLUTION (completed_stages log) ->
     isPrivateNetworkAddress env (RemoteAddr g') = 0 ->
     packetSize (StreamConfig g') = Z.min (rounded_packetSize cfg) 1024 /\
     stores_of v_packetSize log
       = rounded_packetSize cfg ::
         (if 1024 <? rounded_packetSize cfg then [1024] else [])) /\
    (streamingRemotely cfg <> STREAM_CFG_AUTO \/
     ~ In STAGE_NAME_RESOLUTION (completed_stages log) \/
     isPrivateNetworkAddress env (RemoteAddr g') <> 0 ->
     packetSize (StreamConfig g') = rounded_packetSize cfg /\
     stores_of v_packetSize log = [rounded_packetSize cfg]).
Proof.
  intros H. unfold rounded_packetSize, valid_appversion.
  open_inputs g si cfg cl. subst st.
  symex_on (LiStartConnection env (mkServerInfo addr ver) (mkStreamConfig ps mode br)
              (mkListener ct) rc df ac af
              (mkGlobals STAGE_NONE otc at_ code ras ra ral avq sc lc nvf ci ovb)).
  all: do 3 eexists; (split; [reflexivity|]);
    cbn [stage StreamConfig packetSize RemoteAddr]; conds;
    unfold int_sub, int_rem in * |-;
    pose proof (Z.rem_bound_pos ps 16) as Hrem.
  all: split;
    [ intros Hsmall;
      try rewrite (Z.rem_small ps 16) in * by lia;
      try (exfalso; lia);
      repeat split; try reflexivity; cbn; intuition discriminate |].
  all: split;
    [ intros Hbig;
      first [ exfalso; lia
            | split; [cbn; tauto|];
              split;
              [ intros Hver; first [reflexivity | exfalso; lia]
              | intros Hver Hall;
                first [ assumption
                      | exfalso; lia
                      | exfalso;
                        match goal with Hne : _ <> 0 |- _ => apply Hne; apply Hall end ] ] ] |].
  all: split; [intros ->; unfold int_sub, int_rem in *; eval_rem;
               first [exfalso; lia | split; [lia | reflexivity]] |].
  all: split; [intros ->; unfold int_sub, int_rem in *; eval_rem;
               first [exfalso; lia | split; [lia | reflexivity]] |].
  all: split; [intros ->; unfold int_sub, int_rem in *; eval_rem;
               first [exfalso; lia | split; [lia | reflexivity]] |].
  all: split;
    [ intros Hdone;
      first [ exfalso; cbn in Hdone; intuition discriminate
            | eexists; reflexivity ] |].
  all: unfold int_sub, int_rem in *.
  all: split;
    [ intros Hauto Hdone Hpriv;
      first [ exfalso; cbn in Hdone; intuition discriminate
            | exfalso; unfold STREAM_CFG_AUTO in *; congruence
            | split; [lia|];
              first [ rewrite (proj2 (Z.ltb_lt _ _)) by lia; reflexivity
                    | rewrite (proj2 (Z.ltb_ge _ _)) by lia; reflexivity ] ]
    | intros Hother;
      first [ split; reflexivity
            | exfalso; destruct Hother as [Hm | [Hnd | Hp]];
              [ apply Hm; assumption | apply Hnd; cbn; tauto | apply Hp; assumption ] ] ].
Qed.

Lemma roaming_env_succeeds : collaborators_succeed roaming_env 0 0 0 0.
Proof. intros g. repeat split. Qed.

Lemma packet_size_normalization_witness :
  (exists g' log,
     LiStartConnection ok_env example_server (example_config 15 STREAM_CFG_REMOTE)
       example_listener 0 0 0 0 initial_globals = Returned (-1) g' log /\
     started_stages log = []) /\
  (exists g' log,
     LiStartConnection ok_env example_server (example_config 16 STREAM_CFG_LOCAL)
       example_listener 0 0 0 0 initial_globals = Returned 0 g' log /\
     packetSize (StreamConfig g') = 16) /\
  (exists g' log,
     LiStartConnection ok_env example_server (example_config 1000 STREAM_CFG_LOCAL)
       example_listener 0 0 0 0 initial_globals = Returned 0 g' log /\
     packetSize (StreamConfig g') = 992) /\
  (exists g' log,
     LiStartConnection remote_env example_server (example_config 1025 STREAM_CFG_REMOTE)
       example_listener 0 0 0 0 initial_globals = Returned 0 g' log /\
     packetSize (StreamConfig g') = 1024) /\
  (exists g' log,
     LiStartConnection roaming_env example_server (example_config 1025 STREAM_CFG_AUTO)
       example_listener 0 0 0 0 stopped_globals = Returned 0 g' log /\
     streamingRemotely (StreamConfig g') = STREAM_CFG_REMOTE /\
     packetSize (StreamConfig g') = 1024 /\
     stores_of v_packetSize log = [1024]) /\
  (exists g' log,
     LiStartConnection roaming_env example_server (example_config 1400 STREAM_CFG_AUTO)
       example_listener 0 0 0 0 stopped_globals = Returned 0 g' log /\
     streamingRemotely (StreamConfig g') = STREAM_CFG_REMOTE /\
     packetSize (StreamConfig g') = 1024 /\
     stores_of v_packetSize log = [1392; 1024]) /\
  (exists g' log,
     LiStartConnection ok_env example_server (example_config 1400 STREAM_CFG_AUTO)
       example_listener 0 0 0 0 initial_globals = Returned 0 g' log /\
     streamingRemotely (StreamConfig g') = STREAM_CFG_LOCAL /\
     packetSize (StreamConfig g') = 1392 /\
     stores_of v_packetSize log = [1392]).
Proof.
  split; [|split; [|split; [|split; [|split; [|split]]]]].
  - destruct (packet_size_normalization ok_env example_server
                (example_config 15 STREAM_CFG_REMOTE) example_listener 0 0 0 0
                initial_globals eq_refl) as (err & g' & log & Hrun & Hsmall & _).
    destruct Hsmall as (-> & Hnone & _); [cbn; lia|].
    exists g', log. split; assumption.
  - destruct (packet_size_normalization ok_env example_server
                (example_config 16 STREAM_CFG_LOCAL) example_listener 0 0 0 0
                initial_globals eq_refl)
      as (err & g' & log & Hrun & _ & Hbig & H16 & _).
    destruct Hbig as (_ & _ & Hok); [cbn; lia|].
    rewrite (Hok ltac:(cbv; discriminate) ok_env_succeeds) in Hrun.
    destruct (H16 eq_refl) as (Hsize & _).
    exists g', log. split; assumption.
  - destruct (packet_size_normalization ok_env example_server
                (example_config 1000 STREAM_CFG_LOCAL) example_listener 0 0 0 0
                initial_globals eq_refl)
      as (err & g' & log & Hrun & _ & Hbig & _ & H1000 & _).
    destruct Hbig as (_ & _ & Hok); [cbn; lia|].
    rewrite (Hok ltac:(cbv; discriminate) ok_env_succeeds) in Hrun.
    destruct (H1000 eq_refl) as (Hsize & _).
    exists g', log. split; assumption.
  - destruct (packet_size_normalization remote_env example_server
                (example_config 1025 STREAM_CFG_REMOTE) example_listener 0 0 0 0
                initial_globals eq_refl)
      as (err & g' & log & Hrun & _ & Hbig & _ & _ & H1025 & _).
    destruct Hbig as (_ & _ & Hok); [cbn; lia|].
    rewrite (Hok ltac:(cbv; discriminate) remote_env_succeeds) in Hrun.
    destruct (H1025 eq_refl) as (Hsize & _).
    exists g', log. split; assumption.
  - destruct (packet_size_normalization roaming_env example_server
                (example_config 1025 STREAM_CFG_AUTO) example_listener 0 0 0 0
                stopped_globals eq_refl)
      as (err & g' & log & Hrun & _ & _ & _ & _ & H1025 & _).
    pose proof Hrun as Hval. vm_compute in Hval. injection Hval as <- <- <-.
    destruct (H1025 eq_refl) as (Hsize & Hstores).
    eexists _, _. split; [exact Hrun|]. split; [reflexivity|]. split; assumption.
  - destruct (packet_size_normalization roaming_env example_server
                (example_config 1400 STREAM_CFG_AUTO) example_listener 0 0 0 0
                stopped_globals eq_refl)
      as (err & g' & log & Hrun & _ & _ & _ & _ & _ & _ & Hcap & _).
    pose proof Hrun as Hval. vm_compute in Hval. injection Hval as <- <- <-.
    destruct Hcap as (Hsize & Hstores); [reflexivity | cbn; tauto | reflexivity |].
    eexists _, _. split; [exact Hrun|]. split; [reflexivity|]. split; assumption.
  - destruct (packet_size_normalization ok_env example_server
                (example_config 1400 STREAM_CFG_AUTO) example_listener 0 0 0 0
                initial_globals eq_refl)
      as (err & g' & log & Hrun & _ & _ & _ & _ & _ & _ & _ & Hnocap).
    pose proof Hrun as Hval. vm_compute in Hval. injection Hval as <- <- <-.
    destruct Hnocap as (Hsize & Hstores); [right; right; discriminate|].
    eexists _, _. split; [exact Hrun|]. split; [reflexivity|]. split; assumption.
Defined.

(** ** The reset of the two flags *)

(** C8, as the code has it.  [LiStartConnection] resets [alreadyTerminated]
    and [ConnectionInterrupted] only once both checks have passed: after
    it has copied the stream configuration, recorded the original bitrate,
    duplicated the address string, rounded the packet size and checked it,
    parsed the version and hooked the callbacks; the reset comes right
    before the first stage starts.  When a check fails it returns [-1]
    without having reset the flags: the only stores to them are those of
    [LiStopConnection], which sets both. *)
Theorem flags_reset_after_validation env si cfg cl rc df ac af g :
  stage g = STAGE_NONE ->
  exists err g' log,
    LiStartConnection env si cfg cl rc df ac af g = Returned err g' log /\
    (valid_packetSize cfg -> valid_appversion env si g ->
     exists rest,
       log = validation_log si cfg ++ hooking_log ++
             [ EvStore v_alreadyTerminated 0; EvStore v_ConnectionInterrupted 0;
               EvStageStarting STAGE_PLATFORM_INIT ] ++ rest) /\
    (rounded_packetSize cfg = 0 \/
     fst (extractVersionQuadFromString env (serverInfoAppVersion si) (AppVersionQuad g)) < 0 ->
     err = -1 /\
     stores_of v_alreadyTerminated log = [1] /\
     stores_of v_ConnectionInterrupted log = [1] /\
     alreadyTerminated g' = 1 /\
     ConnectionInterrupted g' = 1).
Proof.
  intros H. unfold valid_packetSize, valid_appversion, rounded_packetSize.
  open_inputs g si cfg cl. subst st.
  symex_on (LiStartConnection env (mkServerInfo addr ver) (mkStreamConfig ps mode br)
              (mkListener ct) rc df ac af
              (mkGlobals STAGE_NONE otc at_ code ras ra ral avq sc lc nvf ci ovb)).
  all: clear Hrun; do 3 eexists; (split; [reflexivity|]); conds;
    unfold int_sub, int_rem in * |-;
    (split;
     [ intros Hsize Hver; try (exfalso; congruence); try (exfalso; lia);
       eexists; reflexivity
     | intros [Hbad | Hbad]; try (exfalso; congruence); try (exfalso; lia);
       cbn; auto ]).
Qed.

Lemma flags_reset_after_validation_witness :
  (exists err g' log rest,
     LiStartConnection ok_env example_server (example_config 1392 STREAM_CFG_AUTO)
       example_listener 0 0 0 0 stopped_globals = Returned err g' log /\
     log = validation_log example_server (example_config 1392 STREAM_CFG_AUTO) ++
           hooking_log ++
           [ EvStore v_alreadyTerminated 0; EvStore v_ConnectionInterrupted 0;
             EvStageStarting STAGE_PLATFORM_INIT ] ++ rest) /\
  (exists g' log,
     LiStartConnection bad_version_env example_server (example_config 1392 STREAM_CFG_AUTO)
       example_listener 0 0 0 0 stopped_globals = Returned (-1) g' log /\
     stores_of v_alreadyTerminated log = [1]).
Proof.
  split.
  - destruct (flags_reset_after_validation ok_env example_server
                (example_config 1392 STREAM_CFG_AUTO) example_listener 0 0 0 0
                stopped_globals eq_refl) as (err & g' & log & Hrun & Hvalid & _).
    destruct Hvalid as (rest & Hlog); [discriminate | discriminate |].
    exists err, g', log, rest. split; assumption.
  - destruct (flags_reset_after_validation bad_version_env example_server
                (example_config 1392 STREAM_CFG_AUTO) example_listener 0 0 0 0
                stopped_globals eq_refl) as (err & g' & log & Hrun & _ & Hbad).
    destruct Hbad as (-> & Hstores & _); [right; reflexivity|].
    exists g', log. split; assumption.
Defined.

(** C8, as stated, fails: [LiStartConnection] called with a packet size of
    8, after a session that was stopped, returns the error of an invalid
    configuration and has not reset either flag; both are still set on
    return. *)
Lemma flags_not_reset_on_invalid_configuration :
  exists g' log,
    LiStartConnection ok_env example_server (example_config 8 STREAM_CFG_AUTO)
      example_listener 0 0 0 0 stopped_globals = Returned (-1) g' log /\
    ~ In (EvStore v_alreadyTerminated 0) log /\
    ~ In (EvStore v_ConnectionInterrupted 0) log /\
    alreadyTerminated g' = 1 /\
    ConnectionInterrupted g' = 1.
Proof.
  eexists _, _. split; [vm_compute; reflexivity|].
  repeat split; cbn; intuition discriminate.
Qed.

(** ** The successful start *)

(** When both checks pass and every operation of the other modules
    succeeds, [LiStartConnection] goes through the eleven stages and
    returns 0, whether or not [ConnectionInterrupted] gets set on the
    way. *)
Lemma success_run env si cfg cl rc df ac af g :
  stage g = STAGE_NONE ->
  valid_packetSize cfg ->
  valid_appversion env si g ->
  collaborators_succeed env rc df ac af ->
  exists g' log,
    LiStartConnection env si cfg cl rc df ac af g = Returned 0 g' log /\
    stage g' = STAGE_INPUT_STREAM_START /\
    started_stages log = stages_upto STAGE_INPUT_STREAM_START /\
    completed_stages log = stages_upto STAGE_INPUT_STREAM_START /\
    filter (fun e => is_callback e || is_input_event e) log
      = flat_map stage_callbacks (stages_upto STAGE_INPUT_STREAM_START) ++
        [ EvMouseMove 1 1; EvSleepMs 10; EvMouseMove (-1) (-1); EvSleepMs 10;
          EvConnectionStarted ] /\
    teardown_calls log = [].
Proof.
  intros H Hsize Hver Hall. unfold valid_packetSize, valid_appversion, rounded_packetSize in *.
  open_inputs g si cfg cl. subst st.
  symex_on (LiStartConnection env (mkServerInfo addr ver) (mkStreamConfig ps mode br)
              (mkListener ct) rc df ac af
              (mkGlobals STAGE_NONE otc at_ code ras ra ral avq sc lc nvf ci ovb)).
  all: clear Hrun; conds; unfold int_sub, int_rem in * |-;
    try (exfalso; congruence); try (exfalso; lia);
    try (exfalso; match goal with Hne : _ <> 0 |- _ => apply Hne; apply Hall end).
  all: lazymatch goal with
       | |- exists _ _, Returned ?x _ _ = _ /\ _ =>
           replace x with 0 by (symmetry; assumption)
       end.
  all: eexists _, _; (split; [reflexivity|]); repeat split.
Qed.

(** C4, as the code has it.  With valid server information and
    configuration and every operation of the other modules succeeding,
    [LiStartConnection], entered with no session active, reports the
    eleven stages from [STAGE_PLATFORM_INIT] to [STAGE_INPUT_STREAM_START]
    as starting and complete, in ascending order (there is no callback for
    [STAGE_NONE]); then it sends a mouse move of (1, 1), sleeps 10 ms,
    sends a mouse move of (-1, -1), sleeps 10 ms, calls
    [connectionStarted] once, and returns 0 with the stage at
    [STAGE_INPUT_STREAM_START]. *)
Theorem successful_start_callbacks env si cfg cl rc df ac af g :
  stage g = STAGE_NONE ->
  valid_packetSize cfg ->
  valid_appversion env si g ->
  collaborators_succeed env rc df ac af ->
  exists g' log,
    LiStartConnection env si cfg cl rc df ac af g = Returned 0 g' log /\
    stage g' = STAGE_INPUT_STREAM_START /\
    completed_stages log
      = [ STAGE_PLATFORM_INIT; STAGE_NAME_RESOLUTION; STAGE_RTSP_HANDSHAKE;
          STAGE_CONTROL_STREAM_INIT; STAGE_VIDEO_STREAM_INIT;
          STAGE_AUDIO_STREAM_INIT; STAGE_INPUT_STREAM_INIT;
          STAGE_CONTROL_STREAM_START; STAGE_VIDEO_STREAM_START;
          STAGE_AUDIO_STREAM_START; STAGE_INPUT_STREAM_START ] /\
    filter (fun e => is_callback e || is_input_event e) log
      = flat_map stage_callbacks (stages_upto STAGE_INPUT_STREAM_START) ++
        [ EvMouseMove 1 1; EvSleepMs 10; EvMouseMove (-1) (-1); EvSleepMs 10;
          EvConnectionStarted ].
Proof.
  intros H Hsize Hver Hall.
  destruct (success_run env si cfg cl rc df ac af g H Hsize Hver Hall)
    as (g' & log & Hrun & Hstage & _ & Hdone & Hcalls & _).
  exists g', log. repeat split; assumption.
Qed.

Lemma successful_start_callbacks_witness :
  exists g' log,
    LiStartConnection ok_env example_server (example_config 1392 STREAM_CFG_AUTO)
      example_listener 0 0 0 0 initial_globals = Returned 0 g' log /\
    stage g' = STAGE_INPUT_STREAM_START /\
    List.length (completed_stages log) = 11%nat.
Proof.
  destruct (successful_start_callbacks ok_env example_server
              (example_config 1392 STREAM_CFG_AUTO) example_listener 0 0 0 0
              initial_globals eq_refl ltac:(discriminate) ltac:(discriminate)
              ok_env_succeeds)
    as (g' & log & Hrun & Hstage & Hdone & _).
  exists g', log. split; [assumption|]. split; [assumption|].
  rewrite Hdone. reflexivity.
Defined.

(** C4, as stated, fails: a successful start reports eleven stages
    complete, not twelve; nothing is reported for [STAGE_NONE]. *)
Lemma successful_start_completes_eleven_stages :
  exists g' log,
    LiStartConnection ok_env example_server (example_config 1392 STREAM_CFG_AUTO)
      example_listener 0 0 0 0 initial_globals = Returned 0 g' log /\
    List.length (completed_stages log) = 11%nat /\
    List.length (completed_stages log) <> Z.to_nat STAGE_MAX /\
    ~ In (EvStageComplete STAGE_NONE) log.
Proof.
  eexists _, _. split; [vm_compute; reflexivity|].
  split; [reflexivity|]. split; [discriminate|].
  cbn. intuition discriminate.
Qed.

(** ** The interrupt during a start *)







(** ** The automatic streaming mode *)

(** C6.  When the configuration asks for [STREAM_CFG_AUTO],
    [LiStartConnection], entered with no session active, settles the mode
    once the name resolution has succeeded and before the RTSP handshake
    starts: between the completion of the one stage and the start of the
    other, and nowhere else, it stores [STREAM_CFG_LOCAL] when the resolved
    address is a private one, and [STREAM_CFG_REMOTE] otherwise.  The
    resolved address is the one that [resolveHostName] returned in the name
    resolution stage, whatever [RemoteAddr] held before.  Only in the
    remote case does it cap the packet size at 1024; in the local case the
    rounded packet size is left as it is.  When the name resolution is not
    reached or fails, the mode stays [STREAM_CFG_AUTO]. *)
Theorem auto_mode_resolution env si cfg cl rc df ac af g :
  stage g = STAGE_NONE ->
  streamingRemotely cfg = STREAM_CFG_AUTO ->
  exists err g' log,
    LiStartConnection env si cfg cl rc df ac af g = Returned err g' log /\
    (In STAGE_NAME_RESOLUTION (completed_stages log) ->
     (exists gk,
        RemoteAddr g' = rr_addr (resolveHostName env (address si) AF_UNSPEC 47984 gk) /\
        RemoteAddrLen g' = rr_len (resolveHostName env (address si) AF_UNSPEC 47984 gk) /\
        rr_err (resolveHostName env (address si) AF_UNSPEC 47984 gk) = 0 /\
        stage gk = STAGE_PLATFORM_INIT /\
        RemoteAddr gk = RemoteAddr g /\
        In (EvCall c_resolveHostName)
           (before_first (is_stage_complete STAGE_NAME_RESOLUTION) log)) /\
     stores_of v_streamingRemotely log
       = stores_of v_streamingRemotely (between_stages STAGE_NAME_RESOLUTION log) /\
     (isPrivateNetworkAddress env (RemoteAddr g') <> 0 ->
      streamingRemotely (StreamConfig g') = STREAM_CFG_LOCAL /\
      packetSize (StreamConfig g') = rounded_packetSize cfg /\
      between_stages STAGE_NAME_RESOLUTION log
        = [ EvCall c_isPrivateNetworkAddress;
            EvStore v_streamingRemotely STREAM_CFG_LOCAL ]) /\
     (isPrivateNetworkAddress env (RemoteAddr g') = 0 ->
      streamingRemotely (StreamConfig g') = STREAM_CFG_REMOTE /\
      packetSize (StreamConfig g') = Z.min (rounded_packetSize cfg) 1024 /\
      between_stages STAGE_NAME_RESOLUTION log
        = [ EvCall c_isPrivateNetworkAddress;
            EvStore v_streamingRemotely STREAM_CFG_REMOTE ] ++
          (if 1024 <? rounded_packetSize cfg
           then [EvStore v_packetSize 1024] else []))) /\
    (~ In STAGE_NAME_RESOLUTION (completed_stages log) ->
     streamingRemotely (StreamConfig g') = STREAM_CFG_AUTO /\
     packetSize (StreamConfig g') = rounded_packetSize cfg /\
     stores_of v_streamingRemotely log = [] /\
     ~ In (EvCall c_isPrivateNetworkAddress) log).
Proof.
  intros H Hauto. unfold rounded_packetSize.
  open_inputs g si cfg cl. subst st mode.
  symex_on (LiStartConnection env (mkServerInfo addr ver)
              (mkStreamConfig ps STREAM_CFG_AUTO br)
              (mkListener ct) rc df ac af
              (mkGlobals STAGE_NONE otc at_ code ras ra ral avq sc lc nvf ci ovb)).
  all: clear Hrun; do 3 eexists; (split; [reflexivity|]);
    cbn [StreamConfig streamingRemotely packetSize RemoteAddr RemoteAddrLen];
    conds; unfold int_sub, int_rem in *;
    (split;
     [ intros Hdone;
       first [ exfalso; cbn in Hdone; intuition discriminate
             | split;
               [ eexists; (split; [reflexivity|]); (split; [reflexivity|]);
                 (split; [assumption|]); (split; [reflexivity|]);
                 (split; [reflexivity|]); cbn; tauto |];
               split; [reflexivity|];
               split; intros Hpriv; try (exfalso; congruence);
               (split; [reflexivity|]);
               (split; [lia|]);
               try reflexivity;
               first [ rewrite (proj2 (Z.ltb_lt _ _)) by lia; reflexivity
                     | rewrite (proj2 (Z.ltb_ge _ _)) by lia; reflexivity ] ]
     | intros Hnot;
       first [ exfalso; apply Hnot; cbn; tauto
             | repeat split; try reflexivity; cbn; intuition discriminate ] ]).
Qed.

Lemma auto_mode_resolution_witness :
  (exists err g' log,
     LiStartConnection ok_env example_server (example_config 1392 STREAM_CFG_AUTO)
       example_listener 0 0 0 0 initial_globals = Returned err g' log /\
     streamingRemotely (StreamConfig g') = STREAM_CFG_LOCAL /\
     packetSize (StreamConfig g') = 1392) /\
  (exists err g' log,
     LiStartConnection remote_env example_server (example_config 1392 STREAM_CFG_AUTO)
       example_listener 0 0 0 0 initial_globals = Returned err g' log /\
     streamingRemotely (StreamConfig g') = STREAM_CFG_REMOTE /\
     packetSize (StreamConfig g') = 1024) /\
  (exists err g' log,
     LiStartConnection bad_version_env example_server (example_config 1392 STREAM_CFG_AUTO)
       example_listener 0 0 0 0 initial_globals = Returned err g' log /\
     streamingRemotely (StreamConfig g') = STREAM_CFG_AUTO) /\
  (example_private (RemoteAddr stopped_globals) = 1 /\
   exists err g' log,
     LiStartConnection roaming_env example_server (example_config 1392 STREAM_CFG_AUTO)
       example_listener 0 0 0 0 stopped_globals = Returned err g' log /\
     RemoteAddr g' = [93; 184; 216; 34] /\
     streamingRemotely (StreamConfig g') = STREAM_CFG_REMOTE /\
     packetSize (StreamConfig g') = 1024).
Proof.
  split; [|split; [|split]].
  - destruct (auto_mode_resolution ok_env example_server
                (example_config 1392 STREAM_CFG_AUTO) example_listener 0 0 0 0
                initial_globals eq_refl eq_refl) as (err & g' & log & Hrun & Hyes & _).
    pose proof Hrun as Hval. vm_compute in Hval. injection Hval as <- <- <-.
    destruct Hyes as (_ & _ & Hlocal & _); [cbn; tauto|].
    destruct Hlocal as (Hmode & Hsize & _); [discriminate|].
    eexists _, _, _. split; [exact Hrun|]. split; assumption.
  - destruct (auto_mode_resolution remote_env example_server
                (example_config 1392 STREAM_CFG_AUTO) example_listener 0 0 0 0
                initial_globals eq_refl eq_refl) as (err & g' & log & Hrun & Hyes & _).
    pose proof Hrun as Hval. vm_compute in Hval. injection Hval as <- <- <-.
    destruct Hyes as (_ & _ & _ & Hremote); [cbn; tauto|].
    destruct Hremote as (Hmode & Hsize & _); [reflexivity|].
    eexists _, _, _. split; [exact Hrun|]. split; assumption.
  - destruct (auto_mode_resolution bad_version_env example_server
                (example_config 1392 STREAM_CFG_AUTO) example_listener 0 0 0 0
                initial_globals eq_refl eq_refl) as (err & g' & log & Hrun & _ & Hno).
    pose proof Hrun as Hval. vm_compute in Hval. injection Hval as <- <- <-.
    destruct Hno as (Hmode & _); [cbn; tauto|].
    eexists _, _, _. split; [exact Hrun|]. assumption.
  - split; [reflexivity|].
    destruct (auto_mode_resolution roaming_env example_server
                (example_config 1392 STREAM_CFG_AUTO) example_listener 0 0 0 0
                stopped_globals eq_refl eq_refl) as (err & g' & log & Hrun & Hyes & _).
    pose proof Hrun as Hval. vm_compute in Hval. injection Hval as <- <- <-.
    destruct Hyes as ((gk & Haddr & _) & _ & _ & Hremote); [cbn; tauto|].
    destruct Hremote as (Hmode & Hsize & _); [reflexivity|].
    eexists _, _, _. split; [exact Hrun|]. split; [exact Haddr|]. split; assumption.
Defined.

(** ** The termination callback shim *)

Lemma log_of_bind {A B} (m : M A) (k : A -> M B) g :
  log_of (bind m k g)
  = match m g with
    | Returned a g1 l1 => l1 ++ log_of (k a g1)
    | AssertFailed _ l1 | OutOfBounds _ l1 => l1
    end.
Proof.
  unfold bind. destruct (m g) as [a g1 l1 | g1 l1 | g1 l1]; [|reflexivity..].
  now destruct (k a g1).
Qed.


Lemma final_globals_bind {A B} (m : M A) (k : A -> M B) g :
  final_globals (bind m k g)
  = match m g with
    | Returned a g1 _ => final_globals (k a g1)
    | AssertFailed g1 _ | OutOfBounds g1 _ => g1
    end.
Proof.
  unfold bind. destruct (m g) as [a g1 l1 | g1 l1 | g1 l1]; [|reflexivity..].
  now destruct (k a g1).
Qed.

Lemma dispatches_app l1 l2 :
  dispatches (l1 ++ l2) = (dispatches l1 + dispatches l2)%nat.
Proof. unfold dispatches. now rewrite filter_app, length_app. Qed.

Lemma async_flag_closed env c v : v <> 0 -> async_flag env c v <> 0.
Proof. unfold async_flag. destruct (interruptDuring env c); [discriminate | trivial]. Qed.

(** A call of the shim while it is closed does nothing. *)
Lemma shim_closed env errorCode g :
  gate_closed g ->
  ClInternalConnectionTerminated env errorCode g = Returned tt g [].
Proof.
  unfold gate_closed. rewrite <- !int_ne_true.
  destruct g as [st otc at_ code ras ra ral avq sc lc nvf ci ovb].
  cbn [alreadyTerminated ConnectionInterrupted].
  intros H.
  symex_on (ClInternalConnectionTerminated env errorCode
              (mkGlobals st otc at_ code ras ra ral avq sc lc nvf ci ovb));
    try reflexivity.
  all: destruct H; congruence.
Qed.

(** Any call of the shim hands over at most one notification and leaves
    the shim closed. *)
Lemma shim_once env errorCode g :
  (dispatches (log_of (ClInternalConnectionTerminated env errorCode g)) <= 1)%nat /\
  gate_closed (final_globals (ClInternalConnectionTerminated env errorCode g)).
Proof.
  unfold gate_closed.
  destruct g as [st otc at_ code ras ra ral avq sc lc nvf ci ovb].
  symex_on (ClInternalConnectionTerminated env errorCode
              (mkGlobals st otc at_ code ras ra ral avq sc lc nvf ci ovb)).
  all: clear Hrun; conds;
    cbn [log_of final_globals alreadyTerminated ConnectionInterrupted];
    (split; [|tauto || (left; discriminate)]).
  all: unfold dispatches; cbn [filter is_dispatch];
    repeat match goal with
      | |- context [if ?c then _ else _] => destruct c
      end; cbn; lia.
Qed.

Lemma LiInterruptConnection_quiet : quiet LiInterruptConnection.
Proof.
  intros g. split; [reflexivity|].
  intros _. right. cbn. discriminate.
Qed.

Lemma stop_steps_quiet env : Forall quiet (stop_steps env).
Proof.
  unfold stop_steps. repeat apply Forall_cons; [ .. | apply Forall_nil].
  all: intros [st otc at_ code ras ra ral avq sc lc nvf ci ovb];
    unfold gate_closed;
    cbv -[Z.eqb async_flag LC_ASSERT_enabled Nat.add];
    repeat match goal with
      | |- context [if ?c then _ else _] => destruct c
      | |- context [match ?x with Some _ => _ | None => _ end] => destruct x
      end;
    (split; [reflexivity|]).
  all: try (intros _; left; discriminate);
    try (intros _; right; discriminate);
    try tauto.
  all: intros [Hc | Hc]; [left | right]; try assumption.
  all: now apply async_flag_closed.
Qed.

Section Interleavings.

Variable env : collaborators.

(** Once the shim is closed, no interleaving hands over a notification. *)
Lemma closed_stays_silent sched :
  forall pending g,
    Forall quiet pending ->
    gate_closed g ->
    dispatches (log_of (interleave env sched pending g)) = 0%nat.
Proof.
  induction sched as [|step sched IH]; intros pending g Hq Hc; [reflexivity|].
  destruct step as [ | | errorCode | ]; cbn [interleave].
  - apply IH; [|assumption]. apply Forall_app. split; [assumption|apply stop_steps_quiet].
  - destruct pending as [|s pending]; [now apply IH|].
    inversion Hq as [|? ? Hs Hrest]; subst.
    rewrite log_of_bind.
    destruct (Hs g) as [Hlog Hkeep]. specialize (Hkeep Hc).
    destruct (s g) as [[] g1 l1 | g1 l1 | g1 l1]; cbn [log_of final_globals] in *;
      [|assumption..].
    rewrite dispatches_app, Hlog. now apply IH.
  - rewrite log_of_bind, (shim_closed env errorCode g Hc). now apply IH.
  - rewrite log_of_bind.
    destruct (LiInterruptConnection_quiet g) as [Hlog Hkeep]. specialize (Hkeep Hc).
    destruct (LiInterruptConnection g) as [[] g1 l1 | g1 l1 | g1 l1];
      cbn [log_of final_globals] in *; [|assumption..].
    rewrite dispatches_app, Hlog. now apply IH.
Qed.

End Interleavings.

(** ** The threads, one statement at a time *)





Lemma handler_calls_app h1 h2 st :
  history st = h1 ++ h2 ->
  handler_calls st
  = flat_map (fun a => match a with
                       | HandlerCalled handler errorCode => [(handler, errorCode)]
                       | _ => []
                       end) h1 ++
    flat_map (fun a => match a with
                       | HandlerCalled handler errorCode => [(handler, errorCode)]
                       | _ => []
                       end) h2.
Proof. unfold handler_calls. intros ->. apply flat_map_app. Qed.


























(** The thread that the shim starts calls the caller's original handler
    with the error code of the notification. *)
Example shim_hands_over_to_original_handler :
  exists g' log,
    ClInternalConnectionTerminated ok_env 5 live_globals = Returned tt g' log /\
    dispatches log = 1%nat /\
    terminationCallbackThreadFunc g' = Returned (UserFn 1, 5) g' [].
Proof. eexists _, _. split; [vm_compute; reflexivity|]. split; reflexivity. Qed.

(** When the thread cannot be created, nothing is handed over, and the
    shim stays closed: the notification is lost. *)
Example shim_without_thread :
  exists g' log,
    ClInternalConnectionTerminated no_thread_env 5 live_globals = Returned tt g' log /\
    dispatches log = 0%nat /\
    alreadyTerminated g' = 1.
Proof. eexists _, _. split; [vm_compute; reflexivity|]. split; reflexivity. Qed.

(** * Further properties of the code *)

Lemma release_env_succeeds : collaborators_succeed release_env 0 0 0 0.
Proof. intros g. repeat split. Qed.

(** The run of [LiStopConnection] from any of the twelve stages. *)
Lemma stop_run_log env g :
  0 <= stage g <= STAGE_INPUT_STREAM_START ->
  exists log,
    LiStopConnection env g
      = Returned tt
          (set_RemoteAddrString None
             (set_stage STAGE_NONE
                (set_ConnectionInterrupted 1 (set_alreadyTerminated 1 g)))) log /\
    teardown_calls log = flat_map teardown_for (rev (stages_upto (stage g))) /\
    stores_of v_stage log = stages_below (stage g) /\
    callbacks log = [] /\
    heap_events log
      = match RemoteAddrString g with
        | Some s => [EvFree s]
        | None => []
        end.
Proof.
  intros H. unfold STAGE_INPUT_STREAM_START in H. apply stage_cases in H.
  destruct g as [st otc at_ code ras ra ral avq sc lc nvf ci ovb]; cbn [stage] in *.
  repeat (destruct H as [-> | H]); [ .. | subst st ];
    destruct ras; eexists;
    (split; [ cbv -[async_flag]; rewrite ?async_flag_set; reflexivity |]);
    cbn [RemoteAddrString]; repeat split.
Qed.

(** X1.  From any of the twelve stages, [LiStopConnection] returns, having
    called the teardown operations of the stages [stage .. 1] in that
    order and stepped the stage counter down by one at a time to
    [STAGE_NONE].  It invokes no callback, frees the address string if
    there is one, and changes no variable other than the stage, the two
    flags and [RemoteAddrString]. *)
Theorem stop_unwinds_from_any_stage env g :
  0 <= stage g <= STAGE_INPUT_STREAM_START ->
  exists log,
    LiStopConnection env g
      = Returned tt
          (set_RemoteAddrString None
             (set_stage STAGE_NONE
                (set_ConnectionInterrupted 1 (set_alreadyTerminated 1 g)))) log /\
    teardown_calls log = flat_map teardown_for (rev (stages_upto (stage g))) /\
    stores_of v_stage log = stages_below (stage g) /\
    callbacks log = [] /\
    heap_events log
      = match RemoteAddrString g with
        | Some s => [EvFree s]
        | None => []
        end.
Proof.
  intros H.
  destruct (stop_run_log env g H) as (log & Hstop & Hcalls & Hstages & Hcb & Hheap).
  exists log. split; [exact Hstop|]. split; [exact Hcalls|]. split; [exact Hstages|].
  split; assumption.
Qed.

Lemma stop_unwinds_from_any_stage_witness :
  exists g' log,
    LiStopConnection ok_env live_globals = Returned tt g' log /\
    stage g' = STAGE_NONE /\
    teardown_calls log
      = [ c_stopInputStream; c_stopAudioStream; c_stopVideoStream;
          c_stopControlStream; c_destroyInputStream; c_destroyAudioStream;
          c_destroyVideoStream; c_destroyControlStream; c_cleanupPlatform ] /\
    stores_of v_stage log = [10; 9; 8; 7; 6; 5; 4; 3; 2; 1; 0].
Proof.
  destruct (stop_unwinds_from_any_stage ok_env live_globals)
    as (log & Hstop & Hcalls & Hstages & _).
  - cbv. intuition discriminate.
  - eexists _, log. split; [exact Hstop|]. split; [reflexivity|]. split; assumption.
Defined.


(** The run of [LiStopConnection] when the stage counter is outside the
    twelve stages. *)
Lemma stop_run_outside env g :
  stage g < STAGE_NONE \/ STAGE_INPUT_STREAM_START < stage g ->
  (LC_ASSERT_enabled env = true ->
   LiStopConnection env g
     = AssertFailed (set_ConnectionInterrupted 1 (set_alreadyTerminated 1 g))
         [EvStore v_alreadyTerminated 1; EvStore v_ConnectionInterrupted 1]) /\
  (LC_ASSERT_enabled env = false ->
   exists log,
     LiStopConnection env g
       = Returned tt
           (set_RemoteAddrString None
              (set_ConnectionInterrupted 1 (set_alreadyTerminated 1 g))) log /\
     teardown_calls log = [] /\ stores_of v_stage log = []).
Proof.
  intros H. unfold STAGE_NONE, STAGE_INPUT_STREAM_START in H.
  destruct g as [st otc at_ code ras ra ral avq sc lc nvf ci ovb]; cbn [stage] in *.
  assert (Hne : forall k, 0 <= k <= 11 -> (st =? k) = false)
    by (intros k Hk; apply Z.eqb_neq; lia).
  split; intros Hbuild.
  - cbv -[Z.eqb async_flag LC_ASSERT_enabled].
    rewrite !Hne by lia. rewrite Hbuild. reflexivity.
  - destruct ras; eexists;
      (split; [cbv -[Z.eqb async_flag LC_ASSERT_enabled];
               rewrite !Hne by lia; rewrite Hbuild; reflexivity|]);
      split; reflexivity.
Qed.

(** X2.  When the stage counter is outside the twelve stages,
    [LiStopConnection] sets the two flags and calls no teardown operation.
    With assertions, it stops at [LC_ASSERT(stage == STAGE_NONE)], before the
    address string is freed; without them, it frees the address string and
    returns with the stage counter as it found it. *)
Theorem stop_outside_stages env g :
  stage g < STAGE_NONE \/ STAGE_INPUT_STREAM_START < stage g ->
  (LC_ASSERT_enabled env = true ->
   LiStopConnection env g
     = AssertFailed (set_ConnectionInterrupted 1 (set_alreadyTerminated 1 g))
         [EvStore v_alreadyTerminated 1; EvStore v_ConnectionInterrupted 1]) /\
  (LC_ASSERT_enabled env = false ->
   exists log,
     LiStopConnection env g
       = Returned tt
           (set_RemoteAddrString None
              (set_ConnectionInterrupted 1 (set_alreadyTerminated 1 g))) log /\
     teardown_calls log = [] /\ stores_of v_stage log = []).
Proof.
  intros H.
  destruct (stop_run_outside env g H) as [Hdebug Hrelease].
  split; [exact Hdebug|].
  intros Hbuild. destruct (Hrelease Hbuild) as (log & Hstop & Hquiet & Hstages).
  exists log. split; [exact Hstop|]. split; assumption.
Qed.

Lemma stop_outside_stages_witness :
  LiStopConnection ok_env overrun_globals
    = AssertFailed (set_ConnectionInterrupted 1 (set_alreadyTerminated 1 overrun_globals))
        [EvStore v_alreadyTerminated 1; EvStore v_ConnectionInterrupted 1] /\
  (exists log,
     LiStopConnection release_env overrun_globals
       = Returned tt
           (set_RemoteAddrString None
              (set_ConnectionInterrupted 1 (set_alreadyTerminated 1 overrun_globals))) log /\
     teardown_calls log = []).
Proof.
  split.
  - apply (stop_outside_stages ok_env overrun_globals); [right|]; reflexivity.
  - destruct (stop_outside_stages release_env overrun_globals) as [_ Hrelease];
      [right; reflexivity|].
    destruct (Hrelease eq_refl) as (log & Hstop & Hquiet & _).
    exists log. split; assumption.
Defined.


(** X3.  The result of [LiStartConnection], entered with no session
    active, tells the state of the session.  When it is 0, all eleven stages
    were completed, the stage is [STAGE_INPUT_STREAM_START], no teardown
    operation was called and [connectionStarted] was called exactly once;
    otherwise the stage is [STAGE_NONE], both flags are set, and
    [connectionStarted] was not called. *)
Theorem start_result_tells_session_state env si cfg cl rc df ac af g :
  stage g = STAGE_NONE ->
  exists err g' log,
    LiStartConnection env si cfg cl rc df ac af g = Returned err g' log /\
    (err = 0 ->
     stage g' = STAGE_INPUT_STREAM_START /\
     completed_stages log = stages_upto STAGE_INPUT_STREAM_START /\
     teardown_calls log = [] /\
     filter (fun e => match e with EvConnectionStarted => true | _ => false end) log
       = [EvConnectionStarted]) /\
    (err <> 0 ->
     stage g' = STAGE_NONE /\
     alreadyTerminated g' = 1 /\
     ConnectionInterrupted g' = 1 /\
     ~ In EvConnectionStarted log /\
     ~ In (EvStageComplete STAGE_INPUT_STREAM_START) log).
Proof.
  intros H. open_inputs g si cfg cl. subst st.
  symex_on (LiStartConnection env (mkServerInfo addr ver) (mkStreamConfig ps mode br)
              (mkListener ct) rc df ac af
              (mkGlobals STAGE_NONE otc at_ code ras ra ral avq sc lc nvf ci ovb)).
  all: clear Hrun; do 3 eexists; (split; [reflexivity|]); conds;
    cbn [stage alreadyTerminated ConnectionInterrupted];
    rewrite ?async_flag_set;
    (split; [intros Hz; try congruence; try discriminate; repeat split
            |intros Hnz; try congruence; repeat split; try reflexivity;
             cbn; intuition discriminate]).
Qed.

Lemma start_result_tells_session_state_witness :
  (exists g' log,
     LiStartConnection ok_env example_server (example_config 1392 STREAM_CFG_AUTO)
       example_listener 0 0 0 0 initial_globals = Returned 0 g' log /\
     stage g' = STAGE_INPUT_STREAM_START) /\
  (exists g' log,
     LiStartConnection video_fails_env example_server (example_config 1392 STREAM_CFG_AUTO)
       example_listener 0 0 0 0 initial_globals = Returned (-5) g' log /\
     stage g' = STAGE_NONE /\ ~ In EvConnectionStarted log).
Proof.
  split.
  - destruct (start_result_tells_session_state ok_env example_server
                (example_config 1392 STREAM_CFG_AUTO) example_listener 0 0 0 0
                initial_globals eq_refl) as (err & g' & log & Hrun & Hok & _).
    pose proof Hrun as Hval. vm_compute in Hval. injection Hval as <- _ _.
    destruct (Hok eq_refl) as (Hstage & _).
    exists g', log. split; assumption.
  - destruct (start_result_tells_session_state video_fails_env example_server
                (example_config 1392 STREAM_CFG_AUTO) example_listener 0 0 0 0
                initial_globals eq_refl) as (err & g' & log & Hrun & _ & Hfail).
    pose proof Hrun as Hval. vm_compute in Hval. injection Hval as <- _ _.
    destruct (Hfail ltac:(discriminate)) as (Hstage & _ & _ & Hnot & _).
    exists g', log. repeat split; assumption.
Defined.


(** X4.  [LiStartConnection], entered with no session active, duplicates
    the server address once.  When it fails, at whatever point, it has freed
    the copy and [RemoteAddrString] is [NULL]; when it succeeds, the copy is
    still held in [RemoteAddrString]. *)
Theorem address_string_is_released env si cfg cl rc df ac af g :
  stage g = STAGE_NONE ->
  exists err g' log,
    LiStartConnection env si cfg cl rc df ac af g = Returned err g' log /\
    (err = 0 ->
     heap_events log = [EvStrdup (address si)] /\
     RemoteAddrString g' = Some (address si)) /\
    (err <> 0 ->
     heap_events log = [EvStrdup (address si); EvFree (address si)] /\
     RemoteAddrString g' = None).
Proof.
  intros H. open_inputs g si cfg cl. subst st.
  symex_on (LiStartConnection env (mkServerInfo addr ver) (mkStreamConfig ps mode br)
              (mkListener ct) rc df ac af
              (mkGlobals STAGE_NONE otc at_ code ras ra ral avq sc lc nvf ci ovb)).
  all: clear Hrun; do 3 eexists; (split; [reflexivity|]); conds;
    cbn [RemoteAddrString];
    (split; intros Herr; try congruence; try discriminate; split; reflexivity).
Qed.

Lemma address_string_is_released_witness :
  exists g' log,
    LiStartConnection video_fails_env example_server (example_config 1392 STREAM_CFG_AUTO)
      example_listener 0 0 0 0 initial_globals = Returned (-5) g' log /\
    heap_events log = [EvStrdup "192.168.1.20"; EvFree "192.168.1.20"]%string /\
    RemoteAddrString g' = None.
Proof.
  destruct (address_string_is_released video_fails_env example_server
              (example_config 1392 STREAM_CFG_AUTO) example_listener 0 0 0 0
              initial_globals eq_refl) as (err & g' & log & Hrun & _ & Hfail).
  pose proof Hrun as Hval. vm_compute in Hval. injection Hval as <- _ _.
  destruct (Hfail ltac:(discriminate)) as (Hheap & Haddr).
  exists g', log. repeat split; assumption.
Defined.





(** X6.  When the configuration does not ask for [STREAM_CFG_AUTO],
    [LiStartConnection] leaves the streaming mode as given, never calls
    [isPrivateNetworkAddress], and stores the packet size once only: the
    rounded size is not capped at 1024, in remote mode either. *)
Theorem explicit_mode_is_kept env si cfg cl rc df ac af g :
  stage g = STAGE_NONE ->
  streamingRemotely cfg <> STREAM_CFG_AUTO ->
  exists err g' log,
    LiStartConnection env si cfg cl rc df ac af g = Returned err g' log /\
    streamingRemotely (StreamConfig g') = streamingRemotely cfg /\
    packetSize (StreamConfig g') = rounded_packetSize cfg /\
    stores_of v_streamingRemotely log = [] /\
    stores_of v_packetSize log = [rounded_packetSize cfg] /\
    ~ In (EvCall c_isPrivateNetworkAddress) log.
Proof.
  intros H Hmode. unfold rounded_packetSize. open_inputs g si cfg cl. subst st.
  symex_on (LiStartConnection env (mkServerInfo addr ver) (mkStreamConfig ps mode br)
              (mkListener ct) rc df ac af
              (mkGlobals STAGE_NONE otc at_ code ras ra ral avq sc lc nvf ci ovb)).
  all: clear Hrun; conds; try congruence.
  all: do 3 eexists; (split; [reflexivity|]); repeat split; try reflexivity;
    cbn; intuition discriminate.
Qed.

Lemma explicit_mode_is_kept_witness :
  exists err g' log,
    LiStartConnection remote_env example_server (example_config 1392 STREAM_CFG_REMOTE)
      example_listener 0 0 0 0 initial_globals = Returned err g' log /\
    streamingRemotely (StreamConfig g') = STREAM_CFG_REMOTE /\
    packetSize (StreamConfig g') = 1392.
Proof.
  destruct (explicit_mode_is_kept remote_env example_server
              (example_config 1392 STREAM_CFG_REMOTE) example_listener 0 0 0 0
              initial_globals eq_refl ltac:(discriminate))
    as (err & g' & log & Hrun & Hmode & Hsize & _).
  exists err, g', log. repeat split; assumption.
Defined.


(** X7.  Once both checks have passed, and even if a stage fails
    afterwards, [LiStartConnection] has put the shim in the
    [connectionTerminated] slot of [ListenerCallbacks] and kept the caller's
    handler (a placeholder if the caller gave none) in
    [originalTerminationCallback].  When a check fails, both are left as
    they were. *)
Theorem termination_callback_is_hooked env si cfg cl rc df ac af g :
  stage g = STAGE_NONE ->
  exists err g' log,
    LiStartConnection env si cfg cl rc df ac af g = Returned err g' log /\
    (valid_packetSize cfg -> valid_appversion env si g ->
     ListenerCallbacks g' = mkListener ShimFn /\
     originalTerminationCallback g' = connectionTerminated (fixupMissingCallbacks cl)) /\
    (rounded_packetSize cfg = 0 \/
     fst (extractVersionQuadFromString env (serverInfoAppVersion si) (AppVersionQuad g)) < 0 ->
     ListenerCallbacks g' = ListenerCallbacks g /\
     originalTerminationCallback g' = originalTerminationCallback g).
Proof.
  intros H. unfold valid_packetSize, valid_appversion, rounded_packetSize.
  open_inputs g si cfg cl. subst st.
  symex_on (LiStartConnection env (mkServerInfo addr ver) (mkStreamConfig ps mode br)
              (mkListener ct) rc df ac af
              (mkGlobals STAGE_NONE otc at_ code ras ra ral avq sc lc nvf ci ovb)).
  all: clear Hrun; do 3 eexists; (split; [reflexivity|]); conds;
    unfold int_sub, int_rem in * |-;
    cbn [ListenerCallbacks originalTerminationCallback];
    (split;
     [ intros Hsize Hver; try (exfalso; congruence); try (exfalso; lia);
       split; reflexivity
     | intros [Hbad | Hbad]; try (exfalso; congruence); try (exfalso; lia);
       split; reflexivity ]).
Qed.

Lemma termination_callback_is_hooked_witness :
  exists err g' log,
    LiStartConnection video_fails_env example_server (example_config 1392 STREAM_CFG_AUTO)
      (mkListener NullFn) 0 0 0 0 initial_globals = Returned err g' log /\
    ListenerCallbacks g' = mkListener ShimFn /\
    originalTerminationCallback g' = PlaceholderFn.
Proof.
  destruct (termination_callback_is_hooked video_fails_env example_server
              (example_config 1392 STREAM_CFG_AUTO) (mkListener NullFn) 0 0 0 0
              initial_globals eq_refl) as (err & g' & log & Hrun & Hvalid & _).
  destruct Hvalid as (Hshim & Horig); [discriminate | discriminate |].
  exists err, g', log. repeat split; assumption.
Defined.


(** ** Rounding the packet size *)

Lemma rounded_multiple_of_16 p : Z.rem (p - Z.rem p 16) 16 = 0.
Proof. Z.to_euclidean_division_equations. lia. Qed.

Lemma rounded_is_zero p : p - Z.rem p 16 = 0 <-> -16 < p < 16.
Proof. Z.to_euclidean_division_equations. lia. Qed.

Lemma rounded_towards_zero p : Z.abs (p - Z.rem p 16) <= Z.abs p.
Proof. Z.to_euclidean_division_equations. lia. Qed.

(** X8.  [LiStartConnection] rejects the packet sizes from -15 to 15, and
    those only: they round to zero, and it then returns [-1] before calling
    anything.  Any other packet size, a negative one of -16 or less as
    well, passes the check.  On return the packet size in [StreamConfig] is
    a multiple of 16, no larger in absolute value than the one given. *)
Theorem packet_size_check_range env si cfg cl rc df ac af g :
  stage g = STAGE_NONE ->
  exists err g' log,
    LiStartConnection env si cfg cl rc df ac af g = Returned err g' log /\
    (-16 < packetSize cfg < 16 -> err = -1 /\ forall c, ~ In (EvCall c) log) /\
    (packetSize cfg <= -16 \/ 16 <= packetSize cfg ->
     In (EvCall c_extractVersionQuadFromString) log) /\
    Z.rem (packetSize (StreamConfig g')) 16 = 0 /\
    Z.abs (packetSize (StreamConfig g')) <= Z.abs (packetSize cfg).
Proof.
  intros H. open_inputs g si cfg cl. subst st.
  pose proof (rounded_multiple_of_16 ps) as Hmul.
  pose proof (rounded_is_zero ps) as Hzero.
  pose proof (rounded_towards_zero ps) as Habs.
  symex_on (LiStartConnection env (mkServerInfo addr ver) (mkStreamConfig ps mode br)
              (mkListener ct) rc df ac af
              (mkGlobals STAGE_NONE otc at_ code ras ra ral avq sc lc nvf ci ovb)).
  all: clear Hrun; do 3 eexists; (split; [reflexivity|]); conds;
    unfold int_sub, int_rem in *; cbn [StreamConfig packetSize];
    (split; [intros Hsmall;
             first [ exfalso; lia
                   | split; [reflexivity | cbn; intuition discriminate] ]|]);
    (split; [intros Hbig; first [exfalso; lia | cbn; tauto]|]);
    (split; [assumption || reflexivity | lia]).
Qed.

Lemma packet_size_check_range_witness :
  (exists g' log,
     LiStartConnection ok_env example_server (example_config (-5) STREAM_CFG_LOCAL)
       example_listener 0 0 0 0 initial_globals = Returned (-1) g' log) /\
  (exists err g' log,
     LiStartConnection ok_env example_server (example_config (-40) STREAM_CFG_LOCAL)
       example_listener 0 0 0 0 initial_globals = Returned err g' log /\
     In (EvCall c_extractVersionQuadFromString) log /\
     packetSize (StreamConfig g') = -32).
Proof.
  split.
  - destruct (packet_size_check_range ok_env example_server
                (example_config (-5) STREAM_CFG_LOCAL) example_listener 0 0 0 0
                initial_globals eq_refl) as (err & g' & log & Hrun & Hsmall & _).
    destruct Hsmall as (-> & _); [cbn; lia|].
    exists g', log. assumption.
  - destruct (packet_size_check_range ok_env example_server
                (example_config (-40) STREAM_CFG_LOCAL) example_listener 0 0 0 0
                initial_globals eq_refl) as (err & g' & log & Hrun & _ & Hbig & _).
    pose proof Hrun as Hval. vm_compute in Hval. injection Hval as <- <- <-.
    eexists _, _, _. split; [exact Hrun|]. split; [|reflexivity].
    apply Hbig. left. cbn. lia.
Defined.


(** ** More on the termination callback shim *)

Lemma async_flag_true env c v : interruptDuring env c = true -> async_flag env c v = 1.
Proof. unfold async_flag. now intros ->. Qed.

Lemma async_flag_false env c v : interruptDuring env c = false -> async_flag env c v = v.
Proof. unfold async_flag. now intros ->. Qed.

(** A call of the shim while it is open, when the thread can be
    created. *)
Lemma shim_open_run env errorCode g :
  alreadyTerminated g = 0 ->
  ConnectionInterrupted g = 0 ->
  PltCreateThread env
    (set_alreadyTerminated 1 (set_terminationCallbackErrorCode errorCode g)) = 0 ->
  ClInternalConnectionTerminated env errorCode g
    = Returned tt
        (set_ConnectionInterrupted (async_flag env c_PltCloseThread 0)
           (set_alreadyTerminated 1 (set_terminationCallbackErrorCode errorCode g)))
        [ EvStore v_terminationCallbackErrorCode errorCode;
          EvStore v_alreadyTerminated 1;
          EvCreateThread "AsyncTerm" 0;
          EvCall c_PltCloseThread ].
Proof.
  destruct g as [st otc at_ code ras ra ral avq sc lc nvf ci ovb].
  cbn [alreadyTerminated ConnectionInterrupted]. intros -> -> Hthread.
  cbv [set_alreadyTerminated set_terminationCallbackErrorCode stage
       originalTerminationCallback alreadyTerminated terminationCallbackErrorCode
       RemoteAddrString RemoteAddr RemoteAddrLen AppVersionQuad StreamConfig
       ListenerCallbacks NegotiatedVideoFormat ConnectionInterrupted
       OriginalVideoBitrate] in Hthread.
  symex_on (ClInternalConnectionTerminated env errorCode
              (mkGlobals st otc 0 code ras ra ral avq sc lc nvf 0 ovb)).
  all: clear Hrun; conds; try congruence.
  rewrite Hthread. reflexivity.
Qed.

(** X9.  When the shim is open and [PltCreateThread] fails, no
    notification is handed over, and the shim is closed all the same: every
    later call of it does nothing, so the notification is lost.  With
    assertions the shim stops at [LC_ASSERT(err == 0)] without calling
    [PltCloseThread]; without them it goes on to call [PltCloseThread]. *)
Theorem shim_thread_creation_failure env errorCode g :
  alreadyTerminated g = 0 ->
  ConnectionInterrupted g = 0 ->
  PltCreateThread env
    (set_alreadyTerminated 1 (set_terminationCallbackErrorCode errorCode g)) <> 0 ->
  dispatches (log_of (ClInternalConnectionTerminated env errorCode g)) = 0%nat /\
  (forall errorCode',
     ClInternalConnectionTerminated env errorCode'
       (final_globals (ClInternalConnectionTerminated env errorCode g))
     = Returned tt (final_globals (ClInternalConnectionTerminated env errorCode g)) []) /\
  (LC_ASSERT_enabled env = true ->
   exists g' log,
     ClInternalConnectionTerminated env errorCode g = AssertFailed g' log /\
     ~ In (EvCall c_PltCloseThread) log) /\
  (LC_ASSERT_enabled env = false ->
   exists g' log,
     ClInternalConnectionTerminated env errorCode g = Returned tt g' log /\
     In (EvCall c_PltCloseThread) log).
Proof.
  destruct g as [st otc at_ code ras ra ral avq sc lc nvf ci ovb].
  cbn [alreadyTerminated ConnectionInterrupted]. intros -> -> Hthread.
  cbv [set_alreadyTerminated set_terminationCallbackErrorCode stage
       originalTerminationCallback alreadyTerminated terminationCallbackErrorCode
       RemoteAddrString RemoteAddr RemoteAddrLen AppVersionQuad StreamConfig
       ListenerCallbacks NegotiatedVideoFormat ConnectionInterrupted
       OriginalVideoBitrate] in Hthread.
  apply Z.eqb_neq in Hthread.
  symex_on (ClInternalConnectionTerminated env errorCode
              (mkGlobals st otc 0 code ras ra ral avq sc lc nvf 0 ovb)).
  all: clear Hrun; conds; try congruence;
    try (exfalso; apply Z.eqb_neq in Hthread; congruence).
  all: cbn [log_of final_globals]; unfold dispatches; cbn [filter is_dispatch];
    rewrite Hthread; (split; [reflexivity|]);
    (split; [intros e'; apply shim_closed; left; cbn; discriminate|]);
    split; intros Hbuild; try congruence; eexists _, _; (split; [reflexivity|]);
    cbn; intuition discriminate.
Qed.

Lemma shim_thread_creation_failure_witness :
  dispatches (log_of (ClInternalConnectionTerminated no_thread_env 5 live_globals)) = 0%nat /\
  (exists g' log,
     ClInternalConnectionTerminated no_thread_env 5 live_globals = Returned tt g' log /\
     In (EvCall c_PltCloseThread) log).
Proof.
  destruct (shim_thread_creation_failure no_thread_env 5 live_globals eq_refl eq_refl
              ltac:(discriminate)) as (Hnone & _ & _ & Hrelease).
  split; [exact Hnone | exact (Hrelease eq_refl)].
Defined.


Lemma LiInterruptConnection_keeps_notification : keeps_notification LiInterruptConnection.
Proof. intros g. split; reflexivity. Qed.

Lemma stop_steps_keep_notification env : Forall keeps_notification (stop_steps env).
Proof.
  unfold stop_steps. repeat apply Forall_cons; [ .. | apply Forall_nil].
  all: intros [st otc at_ code ras ra ral avq sc lc nvf ci ovb];
    cbv -[Z.eqb async_flag LC_ASSERT_enabled];
    repeat match goal with
      | |- context [if ?c then _ else _] => destruct c
      | |- context [match ?x with Some _ => _ | None => _ end] => destruct x
      end;
    split; reflexivity.
Qed.

(** While the shim is closed, no interleaving changes the notification
    that was recorded. *)
Lemma closed_keeps_notification env sched :
  forall pending g,
    Forall quiet pending ->
    Forall keeps_notification pending ->
    gate_closed g ->
    terminationCallbackErrorCode (final_globals (interleave env sched pending g))
      = terminationCallbackErrorCode g /\
    originalTerminationCallback (final_globals (interleave env sched pending g))
      = originalTerminationCallback g.
Proof.
  induction sched as [|step sched IH]; intros pending g Hq Hk Hc; [split; reflexivity|].
  destruct step as [ | | errorCode | ]; cbn [interleave].
  - apply IH; [| |assumption]; apply Forall_app; split; try assumption.
    + apply stop_steps_quiet.
    + apply stop_steps_keep_notification.
  - destruct pending as [|s pending]; [now apply IH|].
    inversion Hq as [|? ? Hs Hrest]; subst.
    inversion Hk as [|? ? Hs' Hrest']; subst.
    rewrite final_globals_bind.
    destruct (Hs g) as [_ Hkeep]. specialize (Hkeep Hc).
    destruct (Hs' g) as [Hcode Hotc].
    destruct (s g) as [[] g1 l1 | g1 l1 | g1 l1]; cbn [final_globals] in *;
      [|split; assumption..].
    rewrite <- Hcode, <- Hotc. now apply IH.
  - rewrite final_globals_bind, (shim_closed env errorCode g Hc). now apply IH.
  - rewrite final_globals_bind.
    destruct (LiInterruptConnection_quiet g) as [_ Hkeep]. specialize (Hkeep Hc).
    destruct (LiInterruptConnection_keeps_notification g) as [Hcode Hotc].
    destruct (LiInterruptConnection g) as [[] g1 l1 | g1 l1 | g1 l1];
      cbn [final_globals] in *; [|split; assumption..].
    rewrite <- Hcode, <- Hotc. now apply IH.
Qed.

(** X10.  When the shim is open and the thread can be created, the first
    notification is the one that is delivered: however later calls of the
    shim, interrupts and the statements of [LiStopConnection] are
    interleaved afterwards, exactly one notification is handed over, and
    the "AsyncTerm" thread calls the original handler with the error code of
    the first call. *)
Theorem first_notification_wins env errorCode sched g :
  alreadyTerminated g = 0 ->
  ConnectionInterrupted g = 0 ->
  PltCreateThread env
    (set_alreadyTerminated 1 (set_terminationCallbackErrorCode errorCode g)) = 0 ->
  dispatches (log_of (interleave env (Terminated errorCode :: sched) [] g)) = 1%nat /\
  terminationCallbackThreadFunc
    (final_globals (interleave env (Terminated errorCode :: sched) [] g))
  = Returned (originalTerminationCallback g, errorCode)
      (final_globals (interleave env (Terminated errorCode :: sched) [] g)) [].
Proof.
  intros Hat Hci Hthread. cbn [interleave].
  rewrite log_of_bind, final_globals_bind.
  rewrite (shim_open_run env errorCode g Hat Hci Hthread).
  set (g1 := set_ConnectionInterrupted _ _).
  assert (Hclosed : gate_closed g1) by (left; cbn; discriminate).
  split.
  - rewrite dispatches_app, (closed_stays_silent env sched [] g1); auto.
  - destruct (closed_keeps_notification env sched [] g1) as [Hcode Hotc]; auto.
    unfold terminationCallbackThreadFunc, bind, get, ret. cbn [prepend app].
    rewrite Hcode, Hotc. reflexivity.
Qed.

Lemma first_notification_wins_witness :
  terminationCallbackThreadFunc
    (final_globals (interleave ok_env
                      [Terminated 5; Terminated 6; EnterStop; StopStep; Terminated 7]
                      [] live_globals))
  = Returned (UserFn 1, 5)
      (final_globals (interleave ok_env
                        [Terminated 5; Terminated 6; EnterStop; StopStep; Terminated 7]
                        [] live_globals)) [].
Proof.
  apply (first_notification_wins ok_env 5
           [Terminated 6; EnterStop; StopStep; Terminated 7] live_globals);
    reflexivity.
Defined.


(** X11.  After a call of [LiStartConnection] that failed, the shim is
    closed: a termination reported afterwards by another thread is
    dropped, whatever the interleaving. *)
Theorem failed_start_closes_shim env si cfg cl rc df ac af g :
  stage g = STAGE_NONE ->
  exists err g' log,
    LiStartConnection env si cfg cl rc df ac af g = Returned err g' log /\
    (err <> 0 ->
     (forall errorCode,
        ClInternalConnectionTerminated env errorCode g' = Returned tt g' []) /\
     (forall sched,
        dispatches (log_of (interleave env sched [] g')) = 0%nat)).
Proof.
  intros H. open_inputs g si cfg cl. subst st.
  symex_on (LiStartConnection env (mkServerInfo addr ver) (mkStreamConfig ps mode br)
              (mkListener ct) rc df ac af
              (mkGlobals STAGE_NONE otc at_ code ras ra ral avq sc lc nvf ci ovb)).
  all: clear Hrun; do 3 eexists; (split; [reflexivity|]); conds;
    intros Herr; try congruence;
    (split; [intros e; apply shim_closed | intros sched; apply closed_stays_silent;
                                           [constructor|]]);
    left; cbn; discriminate.
Qed.

Lemma failed_start_closes_shim_witness :
  exists g' log,
    LiStartConnection video_fails_env example_server (example_config 1392 STREAM_CFG_AUTO)
      example_listener 0 0 0 0 initial_globals = Returned (-5) g' log /\
    ClInternalConnectionTerminated video_fails_env 5 g' = Returned tt g' [].
Proof.
  destruct (failed_start_closes_shim video_fails_env example_server
              (example_config 1392 STREAM_CFG_AUTO) example_listener 0 0 0 0
              initial_globals eq_refl) as (err & g' & log & Hrun & Hfail).
  pose proof Hrun as Hval. vm_compute in Hval. injection Hval as <- _ _.
  destruct (Hfail ltac:(discriminate)) as (Hshim & _).
  exists g', log. split; [assumption | apply Hshim].
Defined.


(** X12.  After a successful start during which no interrupt was
    requested, the first termination that is reported goes through the
    shim to the handler that the caller passed to [LiStartConnection] (the
    placeholder, if it passed none), with the error code that was
    reported. *)
Theorem live_session_termination_reaches_handler
    env si cfg cl rc df ac af g errorCode :
  stage g = STAGE_NONE ->
  valid_packetSize cfg ->
  valid_appversion env si g ->
  collaborators_succeed env rc df ac af ->
  (forall c, interruptDuring env c = false) ->
  (forall g, PltCreateThread env g = 0) ->
  exists g1 log1 g2 log2,
    LiStartConnection env si cfg cl rc df ac af g = Returned 0 g1 log1 /\
    ClInternalConnectionTerminated env errorCode g1 = Returned tt g2 log2 /\
    dispatches log2 = 1%nat /\
    terminationCallbackThreadFunc g2
      = Returned (connectionTerminated (fixupMissingCallbacks cl), errorCode) g2 [].
Proof.
  intros H Hsize Hver Hall Hquiet Hthread.
  unfold valid_packetSize, valid_appversion, rounded_packetSize in *.
  open_inputs g si cfg cl. subst st.
  symex_on (LiStartConnection env (mkServerInfo addr ver) (mkStreamConfig ps mode br)
              (mkListener ct) rc df ac af
              (mkGlobals STAGE_NONE otc at_ code ras ra ral avq sc lc nvf ci ovb)).
  all: clear Hrun; conds; unfold int_sub, int_rem in * |-;
    try (exfalso; congruence); try (exfalso; lia);
    try (exfalso; match goal with Hne : _ <> 0 |- _ => apply Hne; apply Hall end).
  all: lazymatch goal with
       | |- exists _ _ _ _, Returned ?x _ _ = _ /\ _ =>
           replace x with 0 by (symmetry; assumption)
       end.
  all: rewrite !async_flag_false by apply Hquiet.
  all: eexists _, _, _, _; (split; [reflexivity|]);
    (split; [apply shim_open_run; [reflexivity | reflexivity | apply Hthread]|]);
    split; reflexivity.
Qed.

Lemma live_session_termination_reaches_handler_witness :
  exists g1 log1 g2 log2,
    LiStartConnection ok_env example_server (example_config 1392 STREAM_CFG_AUTO)
      example_listener 0 0 0 0 initial_globals = Returned 0 g1 log1 /\
    ClInternalConnectionTerminated ok_env 5 g1 = Returned tt g2 log2 /\
    terminationCallbackThreadFunc g2 = Returned (UserFn 1, 5) g2 [].
Proof.
  destruct (live_session_termination_reaches_handler ok_env example_server
              (example_config 1392 STREAM_CFG_AUTO) example_listener 0 0 0 0
              initial_globals 5 eq_refl ltac:(discriminate) ltac:(discriminate)
              ok_env_succeeds ltac:(reflexivity) ltac:(reflexivity))
    as (g1 & log1 & g2 & log2 & Hrun & Hshim & _ & Hthread).
  exists g1, log1, g2, log2. repeat split; assumption.
Defined.


(** X13.  If another thread requests the interrupt during the operation
    of any stage and the start succeeds all the same,
    [ConnectionInterrupted] is still set when [LiStartConnection] returns,
    and the shim drops every termination reported afterwards, whatever the
    interleaving. *)
Theorem interrupt_during_start_silences_session
    env si cfg cl rc df ac af g c :
  stage g = STAGE_NONE ->
  is_stage_operation c = true ->
  interruptDuring env c = true ->
  exists err g' log,
    LiStartConnection env si cfg cl rc df ac af g = Returned err g' log /\
    (err = 0 ->
     ConnectionInterrupted g' = 1 /\
     (forall errorCode,
        ClInternalConnectionTerminated env errorCode g' = Returned tt g' []) /\
     (forall sched,
        dispatches (log_of (interleave env sched [] g')) = 0%nat)).
Proof.
  intros H Hop Hint. open_inputs g si cfg cl. subst st.
  symex_on (LiStartConnection env (mkServerInfo addr ver) (mkStreamConfig ps mode br)
              (mkListener ct) rc df ac af
              (mkGlobals STAGE_NONE otc at_ code ras ra ral avq sc lc nvf ci ovb)).
  all: clear Hrun; do 3 eexists; (split; [reflexivity|]); conds;
    intros Herr; try congruence; try discriminate.
  all: cbn [ConnectionInterrupted];
    match goal with
    | |- ?x = 1 /\ _ =>
        assert (Hset : x = 1)
          by (destruct c; try discriminate Hop;
              rewrite (async_flag_true _ _ _ Hint), ?async_flag_set; reflexivity)
    end;
    (split; [exact Hset|]);
    (split; [intros e; apply shim_closed | intros sched; apply closed_stays_silent;
                                           [constructor|]]);
    right; cbn [ConnectionInterrupted]; rewrite Hset; discriminate.
Qed.

Lemma interrupt_during_start_silences_session_witness :
  exists g' log,
    LiStartConnection deaf_env example_server (example_config 1392 STREAM_CFG_AUTO)
      example_listener 0 0 0 0 initial_globals = Returned 0 g' log /\
    ClInternalConnectionTerminated deaf_env 5 g' = Returned tt g' [].
Proof.
  destruct (interrupt_during_start_silences_session deaf_env example_server
              (example_config 1392 STREAM_CFG_AUTO) example_listener 0 0 0 0
              initial_globals c_startAudioStream eq_refl eq_refl eq_refl)
    as (err & g' & log & Hrun & Hok).
  pose proof Hrun as Hval. vm_compute in Hval. injection Hval as <- _ _.
  destruct (Hok eq_refl) as (_ & Hshim & _).
  exists g', log. split; [assumption | apply Hshim].
Defined.


(** X14.  A successful [LiStartConnection] followed by [LiStopConnection]
    calls the nine teardown operations in the reverse of the order of the
    stages, and leaves the stage at [STAGE_NONE] and [RemoteAddrString] at
    [NULL]; [LiStartConnection] called again in that state succeeds again
    and completes the same stages. *)
Theorem start_stop_restart env si cfg cl rc df ac af g :
  stage g = STAGE_NONE ->
  valid_packetSize cfg ->
  (forall q, 0 <= fst (extractVersionQuadFromString env (serverInfoAppVersion si) q)) ->
  collaborators_succeed env rc df ac af ->
  exists g1 log1 g2 log2 g3 log3,
    LiStartConnection env si cfg cl rc df ac af g = Returned 0 g1 log1 /\
    LiStopConnection env g1 = Returned tt g2 log2 /\
    teardown_calls log2
      = [ c_stopInputStream; c_stopAudioStream; c_stopVideoStream;
          c_stopControlStream; c_destroyInputStream; c_destroyAudioStream;
          c_destroyVideoStream; c_destroyControlStream; c_cleanupPlatform ] /\
    stage g2 = STAGE_NONE /\
    RemoteAddrString g2 = None /\
    LiStartConnection env si cfg cl rc df ac af g2 = Returned 0 g3 log3 /\
    stage g3 = STAGE_INPUT_STREAM_START /\
    completed_stages log3 = completed_stages log1.
Proof.
  intros H Hsize Hver Hall.
  destruct (success_run env si cfg cl rc df ac af g H Hsize (Hver _) Hall)
    as (g1 & log1 & Hrun1 & Hstage1 & _ & Hdone1 & _).
  assert (Hrange : 0 <= stage g1 <= 11) by (rewrite Hstage1; cbv; intuition discriminate).
  destruct (stop_run env g1 Hrange) as (log2 & Hstop & Hcalls & _).
  rewrite Hstage1 in Hcalls.
  set (g2 := set_RemoteAddrString None _) in Hstop.
  destruct (success_run env si cfg cl rc df ac af g2 eq_refl Hsize (Hver _) Hall)
    as (g3 & log3 & Hrun3 & Hstage3 & _ & Hdone3 & _).
  exists g1, log1, g2, log2, g3, log3.
  repeat split; try assumption.
  now rewrite Hdone1, Hdone3.
Qed.

Lemma start_stop_restart_witness :
  exists g1 log1 g2 log2 g3 log3,
    LiStartConnection ok_env example_server (example_config 1392 STREAM_CFG_AUTO)
      example_listener 0 0 0 0 initial_globals = Returned 0 g1 log1 /\
    LiStopConnection ok_env g1 = Returned tt g2 log2 /\
    stage g2 = STAGE_NONE /\
    LiStartConnection ok_env example_server (example_config 1392 STREAM_CFG_AUTO)
      example_listener 0 0 0 0 g2 = Returned 0 g3 log3 /\
    stage g3 = STAGE_INPUT_STREAM_START.
Proof.
  destruct (start_stop_restart ok_env example_server
              (example_config 1392 STREAM_CFG_AUTO) example_listener 0 0 0 0
              initial_globals eq_refl ltac:(discriminate)
              ltac:(intros q; discriminate) ok_env_succeeds)
    as (g1 & log1 & g2 & log2 & g3 & log3 & H1 & H2 & _ & H3 & _ & H4 & H5 & _).
  exists g1, log1, g2, log2, g3, log3. repeat split; assumption.
Defined.


(** Evaluation that also leaves the stage counter alone. *)
Declare Reduction run_prologue :=
  cbv -[async_flag int_eq int_ne int_lt int_gt int_sub int_rem
        LC_ASSERT_enabled extractVersionQuadFromString
        initializePlatform resolveHostName isPrivateNetworkAddress
        performRtspHandshake initializeControlStream
        startControlStream startVideoStream startAudioStream
        startInputStream PltCreateThread interruptDuring
        rr_err rr_addr rr_len fst snd
        fixupMissingCallbacks connectionTerminated
        Z.eqb Z.add Z.sub].

(** The body of [LiStartConnection] when one of its two checks fails,
    whatever the stage it is entered at. *)
Lemma body_fails_validation env si cfg cl rc df ac af g :
  rounded_packetSize cfg = 0 \/
  fst (extractVersionQuadFromString env (serverInfoAppVersion si) (AppVersionQuad g)) < 0 ->
  exists g1 log,
    LiStartConnection_body env si cfg cl rc df ac af g = Returned (-1) g1 log /\
    stage g1 = stage g /\
    RemoteAddrString g1 = Some (address si) /\
    teardown_calls log = [] /\
    callbacks log = [] /\
    heap_events log = [EvStrdup (address si)].
Proof.
  unfold rounded_packetSize. intros Hbad.
  open_inputs g si cfg cl.
  lazymatch goal with
  | |- exists g1 log, ?o = _ /\ _ =>
      let o' := eval run_prologue in o in change o with o'
  end.
  destruct (int_eq (int_sub ps (int_rem ps 16)) 0) eqn:Hsize.
  - eexists _, _. split; [reflexivity|]. repeat split.
  - destruct (int_lt (fst (extractVersionQuadFromString env ver avq)) 0) eqn:Hver.
    + eexists _, _. split; [reflexivity|]. repeat split.
    + exfalso. conds. unfold int_sub, int_rem in *. destruct Hbad; [congruence | lia].
Qed.

(** X15.  [LiStartConnection] does not check that no session is active.
    Called at any of the twelve stages with a configuration that fails one
    of the two checks, it returns [-1] after [LiStopConnection] has torn
    down the stages of the session that was there; the one string it frees
    is the copy of the address that it has just made. *)
Theorem invalid_start_stops_established_session env si cfg cl rc df ac af g :
  0 <= stage g <= STAGE_INPUT_STREAM_START ->
  rounded_packetSize cfg = 0 \/
  fst (extractVersionQuadFromString env (serverInfoAppVersion si) (AppVersionQuad g)) < 0 ->
  exists g' log,
    LiStartConnection env si cfg cl rc df ac af g = Returned (-1) g' log /\
    stage g' = STAGE_NONE /\
    teardown_calls log = flat_map teardown_for (rev (stages_upto (stage g))) /\
    callbacks log = [] /\
    heap_events log = [EvStrdup (address si); EvFree (address si)].
Proof.
  intros Hrange Hbad.
  destruct (body_fails_validation env si cfg cl rc df ac af g Hbad)
    as (g1 & log1 & Hbody & Hstage & Haddr & Hquiet & Hcb & Hheap).
  assert (Hrange1 : 0 <= stage g1 <= STAGE_INPUT_STREAM_START) by now rewrite Hstage.
  destruct (stop_run_log env g1 Hrange1)
    as (log2 & Hstop & Hcalls & _ & Hcb2 & Hfree).
  eexists _, (log1 ++ log2).
  split; [exact (start_failure env si cfg cl rc df ac af g (-1) g1 log1 _ _ Hbody
                   ltac:(discriminate) Hstop)|].
  split; [reflexivity|].
  unfold teardown_calls, callbacks, heap_events in *.
  rewrite Haddr in Hfree.
  rewrite flat_map_app, !filter_app, Hquiet, Hcalls, Hcb, Hcb2, Hheap, Hfree, Hstage.
  repeat split.
Qed.

Lemma invalid_start_stops_established_session_witness :
  exists g' log,
    LiStartConnection ok_env example_server (example_config 8 STREAM_CFG_AUTO)
      example_listener 0 0 0 0 live_globals = Returned (-1) g' log /\
    stage g' = STAGE_NONE /\
    teardown_calls log
      = [ c_stopInputStream; c_stopAudioStream; c_stopVideoStream;
          c_stopControlStream; c_destroyInputStream; c_destroyAudioStream;
          c_destroyVideoStream; c_destroyControlStream; c_cleanupPlatform ].
Proof.
  destruct (invalid_start_stops_established_session ok_env example_server
              (example_config 8 STREAM_CFG_AUTO) example_listener 0 0 0 0 live_globals)
    as (g' & log & Hrun & Hstage & Hcalls & _).
  - cbv. intuition discriminate.
  - left. reflexivity.
  - exists g', log. repeat split; assumption.
Defined.


(** X16.  Called again on an established session, with a valid
    configuration and operations that succeed, [LiStartConnection] starts
    the platform initialization once more.  With assertions, it then stops at
    [LC_ASSERT(stage == STAGE_PLATFORM_INIT)], the stage counter at 12.
    Without them, it runs all the stages again and returns 0 with the stage
    counter at 22, from where [LiStopConnection] tears nothing down. *)
Theorem start_on_established_session env si cfg cl rc df ac af g :
  stage g = STAGE_INPUT_STREAM_START ->
  valid_packetSize cfg ->
  valid_appversion env si g ->
  collaborators_succeed env rc df ac af ->
  (LC_ASSERT_enabled env = true ->
   exists g' log,
     LiStartConnection env si cfg cl rc df ac af g = AssertFailed g' log /\
     stage g' = STAGE_INPUT_STREAM_START + 1 /\
     started_stages log = [STAGE_PLATFORM_INIT] /\
     completed_stages log = [] /\
     teardown_calls log = []) /\
  (LC_ASSERT_enabled env = false ->
   exists g' log stop_log,
     LiStartConnection env si cfg cl rc df ac af g = Returned 0 g' log /\
     stage g' = 2 * STAGE_INPUT_STREAM_START /\
     teardown_calls log = [] /\
     LiStopConnection env g'
       = Returned tt
           (set_RemoteAddrString None
              (set_ConnectionInterrupted 1 (set_alreadyTerminated 1 g'))) stop_log /\
     teardown_calls stop_log = []).
Proof.
  intros H Hsize Hver Hall.
  unfold valid_packetSize, valid_appversion, rounded_packetSize in *.
  open_inputs g si cfg cl. subst st.
  symex_on (LiStartConnection env (mkServerInfo addr ver) (mkStreamConfig ps mode br)
              (mkListener ct) rc df ac af
              (mkGlobals STAGE_INPUT_STREAM_START otc at_ code ras ra ral avq sc lc nvf ci ovb)).
  all: clear Hrun; conds; unfold int_sub, int_rem in * |-;
    try (exfalso; congruence); try (exfalso; lia);
    try (exfalso; match goal with Hne : _ <> 0 |- _ => apply Hne; apply Hall end).
  all: split; intros Hbuild; try congruence.
  all: first
    [ eexists _, _; split; [reflexivity|]; repeat split
    | lazymatch goal with
      | |- exists _ _ _, Returned ?x _ _ = _ /\ _ =>
          replace x with 0 by (symmetry; assumption)
      end;
      lazymatch goal with
      | |- exists _ _ _, Returned 0 ?G ?L = _ /\ _ =>
          destruct (stop_run_outside env G ltac:(right; reflexivity)) as [_ Hrelease];
          destruct (Hrelease ltac:(assumption)) as (stop_log & Hstop & Hquiet & _);
          exists G, L, stop_log
      end;
      repeat split; first [assumption | reflexivity] ].
Qed.

Lemma start_on_established_session_witness :
  (exists g' log,
     LiStartConnection ok_env example_server (example_config 1392 STREAM_CFG_AUTO)
       example_listener 0 0 0 0 live_globals = AssertFailed g' log /\
     stage g' = 12) /\
  (exists g' log,
     LiStartConnection release_env example_server (example_config 1392 STREAM_CFG_AUTO)
       example_listener 0 0 0 0 live_globals = Returned 0 g' log /\
     stage g' = 22).
Proof.
  split.
  - destruct (start_on_established_session ok_env example_server
                (example_config 1392 STREAM_CFG_AUTO) example_listener 0 0 0 0
                live_globals eq_refl ltac:(discriminate) ltac:(discriminate)
                ok_env_succeeds) as (Hdebug & _).
    destruct (Hdebug eq_refl) as (g' & log & Hrun & Hstage & _).
    exists g', log. split; assumption.
  - destruct (start_on_established_session release_env example_server
                (example_config 1392 STREAM_CFG_AUTO) example_listener 0 0 0 0
                live_globals eq_refl ltac:(discriminate) ltac:(discriminate)
                release_env_succeeds) as (_ & Hrelease).
    destruct (Hrelease eq_refl) as (g' & log & stop_log & Hrun & Hstage & _).
    exists g', log. split; assumption.
Defined.

